(** * clear.py: the service-record conversion script, embedded in Rocq

    The script is one Streamlit page: a button handler that validates the
    input text, probes three endpoints of the extractor, sends the extraction
    request, evaluates the reply and builds the table; then a statistics
    block and an Excel export block that run on the edited table.

    Python [str] values are sequences of Unicode code points, so that
    [strip], [split] and [len] mean what they mean in Python.  The outer
    world (extractor, [eval], [str()]) is an explicit environment, and the
    handler writes the calls it issues and the messages it shows to a trace. *)

From Stdlib Require Import List NArith ZArith Arith Bool Lia Ascii.
From Stdlib Require String.
Import ListNotations String.StringSyntax.
Open Scope string_scope.
Open Scope list_scope.

Set Implicit Arguments.
Set Warnings "-register-all".

(** ** Python strings *)

Module PyStr.

(** A [str] is a list of code points. *)
Definition pystr := list N.

Definition byte (a : ascii) : N := N_of_ascii a.

(** Source literals are written as UTF-8 text; [lit] reads the code
    points back (1 to 4 byte sequences). *)
Fixpoint lit (s : String.string) : pystr :=
  match s with
  | String.EmptyString => []
  | String.String a s1 =>
      let b := byte a in
      if (b <? 128)%N then b :: lit s1
      else if (b <? 224)%N then
        match s1 with
        | String.String a1 s2 => ((b - 192) * 64 + (byte a1 - 128))%N :: lit s2
        | _ => []
        end
      else if (b <? 240)%N then
        match s1 with
        | String.String a1 (String.String a2 s3) =>
            ((b - 224) * 4096 + (byte a1 - 128) * 64 + (byte a2 - 128))%N :: lit s3
        | _ => []
        end
      else
        match s1 with
        | String.String a1 (String.String a2 (String.String a3 s4)) =>
            ((b - 240) * 262144 + (byte a1 - 128) * 4096
             + (byte a2 - 128) * 64 + (byte a3 - 128))%N :: lit s4
        | _ => []
        end
  end.

Fixpoint eqb (s t : pystr) : bool :=
  match s, t with
  | [], [] => true
  | c :: s', d :: t' => (c =? d)%N && eqb s' t'
  | _, _ => false
  end.

(** [str.isspace] for one character: the code points CPython lists as
    whitespace. *)
Definition isspace (c : N) : bool :=
  ((9 <=? c) && (c <=? 13) || (28 <=? c) && (c <=? 32)
   || (c =? 133) || (c =? 160) || (c =? 5760)
   || (8192 <=? c) && (c <=? 8202)
   || (c =? 8232) || (c =? 8233) || (c =? 8239) || (c =? 8287)
   || (c =? 12288))%N.

Fixpoint lstrip (s : pystr) : pystr :=
  match s with
  | [] => []
  | c :: s' => if isspace c then lstrip s' else s
  end.

Definition rstrip (s : pystr) : pystr := rev (lstrip (rev s)).

(** [s.strip()] *)
Definition strip (s : pystr) : pystr := rstrip (lstrip s).

Definition newline : N := 10.

(** [s.split('\n')]: empty segments are kept, and the empty string
    splits into one empty segment. *)
Fixpoint split_lines (s : pystr) : list pystr :=
  match s with
  | [] => [[]]
  | c :: s' =>
      if (c =? newline)%N then [] :: split_lines s'
      else match split_lines s' with
           | seg :: rest => (c :: seg) :: rest
           | [] => [[c]]
           end
  end.

Definition digit (d : N) : N := (48 + d)%N.

Fixpoint of_uint (u : Decimal.uint) : pystr :=
  match u with
  | Decimal.Nil => []
  | Decimal.D0 u' => digit 0 :: of_uint u'
  | Decimal.D1 u' => digit 1 :: of_uint u'
  | Decimal.D2 u' => digit 2 :: of_uint u'
  | Decimal.D3 u' => digit 3 :: of_uint u'
  | Decimal.D4 u' => digit 4 :: of_uint u'
  | Decimal.D5 u' => digit 5 :: of_uint u'
  | Decimal.D6 u' => digit 6 :: of_uint u'
  | Decimal.D7 u' => digit 7 :: of_uint u'
  | Decimal.D8 u' => digit 8 :: of_uint u'
  | Decimal.D9 u' => digit 9 :: of_uint u'
  end.

(** [str(n)] for a non-negative [int], as an f-string renders it. *)
Definition of_nat (n : nat) : pystr := of_uint (Nat.to_uint n).

(** Truth value of a [str]: non-empty. *)
Definition truthy (s : pystr) : bool :=
  match s with [] => false | _ :: _ => true end.

End PyStr.

Import PyStr.

(** ** Python values and the outer world *)

Module Py.

(** What [eval] can return.  [PyObject] stands for any object of another
    type (a float, a set, a function), known by its printed form. *)
Inductive pyvalue :=
| PyNone
| PyBool (b : bool)
| PyInt (z : Z)
| PyStr (s : pystr)
| PyList (items : list pyvalue)
| PyTuple (items : list pyvalue)
| PyDict (entries : list (pyvalue * pyvalue))
| PyObject (repr : pystr).

(** [d.get(key, default)] for a [str] key.  Only a [str] equals a [str];
    the entries of a [dict] have distinct keys, so the first match is the
    only one. *)
Fixpoint dict_get (entries : list (pyvalue * pyvalue)) (key : pystr)
    (default : pyvalue) : pyvalue :=
  match entries with
  | [] => default
  | (PyStr k, v) :: rest =>
      if PyStr.eqb k key then v else dict_get rest key default
  | _ :: rest => dict_get rest key default
  end.

(** [isinstance(v, dict)] *)
Definition is_dict (v : pyvalue) : bool :=
  match v with PyDict _ => true | _ => false end.

(** [isinstance(v, list)] *)
Definition is_list (v : pyvalue) : bool :=
  match v with PyList _ => true | _ => false end.

(** Outcome of [eval(text)].  [except Exception] catches the first kind of
    failure only: [SystemExit], [KeyboardInterrupt] and [GeneratorExit] do
    not derive from [Exception].  The text is taken as an expression that
    describes data: [Evaluates] and the two failures stand for an evaluation
    that leaves the variables of the script alone.  A reply that is code
    acting on them ([data], [errors], the session) is outside this model. *)
Inductive eval_result :=
| Evaluates (v : pyvalue)
| RaisesException (e : pystr)
| RaisesBaseException.

(** Arguments of [client.chat.completions.create]. *)
Record request := {
  model : pystr;
  messages : list (pystr * pystr);   (* role, content *)
  max_tokens : option nat;
  stream : option bool
}.

(** A completion call raises, or returns the [message.content] of each of
    its [choices] ([None] when the content is [None]). *)
Inductive reply :=
| Raises (e : pystr)
| Response (choices : list (option pystr)).

(** Everything the handler reads from outside. *)
Record Env := {
  deepseek_api_key : option pystr;
  create : pystr -> request -> reply;   (* OpenAI(base_url=...).chat.completions.create *)
  py_eval : pystr -> eval_result;       (* eval *)
  py_str : pyvalue -> pystr;            (* str(), as f-strings apply it *)
  py_str_raises : pyvalue -> option pystr
    (* the text of the exception [str()] raises on a value, if it raises:
       on an [int] of more than 4300 digits, or on an object whose
       [__str__] fails; [py_str] is read only when this is [None] *)
}.

End Py.

Import Py.

(** ** The page: calls issued and messages shown *)

Module Page.

Inductive event :=
| Create (base_url : pystr) (req : request)
| StWarning (msg : pystr)
| StError (msg : pystr)
| StInfo (msg : pystr)
| StSuccess (msg : pystr)
| SidebarSuccess (msg : pystr)
| Expander (label : pystr) (errors : list pystr)
| SetDf (data : list (list pyvalue))
| Metric (label : pystr) (value : nat).

(** How a block ends: it goes on with a value, [st.stop()] ends the run,
    or an exception leaves the script. *)
Inductive status (A : Type) :=
| Continue (a : A)
| Stop
| Fault.
Arguments Stop {A}.
Arguments Fault {A}.

Definition M (A : Type) : Type := list event * status A.

Definition ret {A} (a : A) : M A := ([], Continue a).

Definition bind {A B} (m : M A) (f : A -> M B) : M B :=
  match m with
  | (t, Continue a) => let (t', r) := f a in (t ++ t', r)
  | (t, Stop) => (t, Stop)
  | (t, Fault) => (t, Fault)
  end.

Definition emit (e : event) : M unit := ([e], Continue tt).
Definition stop {A} : M A := ([], Stop).
Definition fault {A} : M A := ([], Fault).

Definition trace {A} (m : M A) : list event := fst m.
Definition outcome {A} (m : M A) : status A := snd m.

End Page.

Import Page.

Declare Scope page_scope.
Delimit Scope page_scope with page.
Notation "x <- m ;; k" := (bind m (fun x => k))
  (at level 61, m at next level, right associativity) : page_scope.
Notation "m ;; k" := (bind m (fun _ => k))
  (at level 61, right associativity) : page_scope.
Open Scope page_scope.

(** ** The fixed schema *)

(** [columns] (line 123). *)
Definition columns : list pystr :=
  [lit "师傅"; lit "项目"; lit "地址"; lit "房号"; lit "客户姓名";
   lit "电话号码"; lit "服务内容"; lit "费用"; lit "支付状态"; lit "备注"].

(** ** Reading the extractor's reply (lines 285-313) *)

Module Validator.

Definition empty_str : pyvalue := PyStr [].

(** The list appended to [data] for one [dict]: ten [record.get(key, '')]. *)
Definition row_of (record : list (pyvalue * pyvalue)) : list pyvalue :=
  [dict_get record (lit "师傅") empty_str;
   dict_get record (lit "项目") empty_str;
   dict_get record (lit "地址") empty_str;
   dict_get record (lit "房号") empty_str;
   dict_get record (lit "客户姓名") empty_str;
   dict_get record (lit "电话号码") empty_str;
   dict_get record (lit "服务内容") empty_str;
   dict_get record (lit "费用") empty_str;
   dict_get record (lit "支付状态") empty_str;
   dict_get record (lit "备注") empty_str].

Section WithEnv.

Variable env : Env.

(** The f-string of line 309, with the number it is given. *)
Definition record_error (n : nat) (record : pyvalue) : pystr :=
  lit "第 " ++ of_nat n ++ lit " 条记录格式错误: " ++ py_str env record.

Definition not_a_list_error : pystr :=
  lit "解析结果不是列表格式，请检查输入文本！".

Definition parse_error (e : pystr) : pystr := lit "解析失败: " ++ e.

(** The [for record in parsed_data] loop, from the [data] and [errors]
    built so far.  The loop stands inside the [try] of line 291: when
    printing a record in the f-string of line 309 raises, the loop is left
    for the [except] clause of line 312, which appends the parse-failure
    message; [data] keeps the rows appended until then. *)
Fixpoint validate_records (parsed_data : list pyvalue)
    (data : list (list pyvalue)) (errors : list pystr)
    : list (list pyvalue) * list pystr :=
  match parsed_data with
  | [] => (data, errors)
  | record :: rest =>
      match record with
      | PyDict entries =>
          validate_records rest (data ++ [row_of entries]) errors
      | _ =>
          match py_str_raises env record with
          | Some e => (data, errors ++ [parse_error e])
          | None =>
              validate_records rest data
                (errors ++ [record_error (length data + 1) record])
          end
      end
  end.

(** The [try] block of lines 291-313 on the reply's content: [data] and
    [errors] after it, or [None] when an exception that is not an
    [Exception] leaves it. *)
Definition parse_reply (content : pystr)
    : option (list (list pyvalue) * list pystr) :=
  match py_eval env content with
  | Evaluates (PyList parsed_data) =>
      Some (validate_records parsed_data [] [])
  | Evaluates _ => Some ([], [not_a_list_error])
  | RaisesException e => Some ([], [parse_error e])
  | RaisesBaseException => None
  end.

End WithEnv.

End Validator.

Import Validator.

(** ** The button handler (lines 126-324) *)

Module Handler.

(** [endpoints] (lines 141-145). *)
Definition endpoints : list pystr :=
  [lit "https://api.deepseek.com";
   lit "https://api.deepseek.com/v1";
   lit "https://api.deepseek.cc"].

Definition max_records : nat := 50.

(** The test call of lines 153-157. *)
Definition test_request : request :=
  {| model := lit "deepseek-chat";
     messages := [(lit "user", lit "测试")];
     max_tokens := Some 5;
     stream := None |}.

(** [len(input_text.strip().split('\n'))] *)
Definition line_count (input_text : pystr) : nat :=
  length (split_lines (strip input_text)).

Definition too_many_message (line_count : nat) : pystr :=
  lit "一次最多处理" ++ of_nat max_records ++ lit "条记录（当前"
  ++ of_nat line_count ++ lit "条），请分批处理".

Definition no_records_message : pystr :=
  lit "未能解析出任何记录，请检查输入格式！".

Definition all_failed_message : pystr := lit "所有API端点测试失败".

Section WithEnv.

(** The system message of lines 196-271 is a fixed text; it contains
    double quotes and nothing below reads it. *)
Variable system_prompt : pystr.
Variable env : Env.

(** The extraction call of lines 193-275. *)
Definition extraction_request (input_text : pystr) : request :=
  {| model := lit "deepseek-chat";
     messages :=
       [(lit "system", system_prompt);
        (lit "user",
         lit "请解析以下清洗服务记录文本并输出为JSON格式:" ++ [newline] ++ input_text)];
     max_tokens := None;
     stream := Some false |}.

(** One call of [client.chat.completions.create] on a client bound to
    [base_url]: the call is written to the trace. *)
Definition call (base_url : pystr) (req : request) : M reply :=
  emit (Create base_url req) ;; ret (create env base_url req).

(** [not deepseek_api_key] is false. *)
Definition key_configured : bool :=
  match deepseek_api_key env with
  | Some k => truthy k
  | None => false
  end.

(** The loop of lines 150-163 over the endpoints still to try.  It
    returns the endpoint it stopped at on success ([endpoint] keeps that
    value after [break]) and [error_messages]. *)
Fixpoint test_endpoints (todo : list pystr) (error_messages : list pystr)
    : M (option pystr * list pystr) :=
  match todo with
  | [] => ret (None, error_messages)
  | endpoint :: rest =>
      test_response <- call endpoint test_request ;;
      match test_response with
      | Raises e =>
          test_endpoints rest (error_messages ++ [endpoint ++ lit ": " ++ e])
      | Response [] => test_endpoints rest error_messages
      | Response (_ :: _) =>
          emit (SidebarSuccess (lit "API端点可用: " ++ endpoint)) ;;
          ret (Some endpoint, error_messages)
      end
  end.

(** Lines 168-179: what is shown when no endpoint passed the test. *)
Definition report_key_failure (error_messages : list pystr) : M unit :=
  emit (StError (lit "API密钥验证失败: " ++ all_failed_message)) ;;
  emit (StInfo (lit "请检查：")) ;;
  emit (StInfo (lit "1. API密钥是否正确且未过期")) ;;
  emit (StInfo (lit "2. 密钥是否完整复制（以'sk-'开头）")) ;;
  emit (StInfo (lit "3. 访问 https://platform.deepseek.com 检查账户状态")) ;;
  emit (Expander (lit "详细错误信息") error_messages).

(** Lines 276-282. *)
Definition report_call_failure (e : pystr) : M unit :=
  emit (StError (lit "API调用失败: " ++ e)) ;;
  emit (StInfo (lit "建议尝试：")) ;;
  emit (StInfo (lit "1. 检查DeepSeek平台状态")) ;;
  emit (StInfo (lit "2. 稍后重试")) ;;
  emit (StInfo (lit "3. 联系DeepSeek支持")).

(** [response.choices[0].message.content] when line 287 lets it
    through: there is a choice and its content is a non-empty string. *)
Definition usable_content (choices : list (option pystr)) : option pystr :=
  match choices with
  | Some content :: _ => if truthy content then Some content else None
  | _ => None
  end.

(** Lines 285-313: from the reply's choices to [data] and [errors]. *)
Definition read_response (choices : list (option pystr))
    : M (list (list pyvalue) * list pystr) :=
  match usable_content choices with
  | None => emit (StError no_records_message) ;; stop
  | Some content =>
      match parse_reply env content with
      | None => fault
      | Some result => ret result
      end
  end.

Fixpoint show_errors (errors : list pystr) : M unit :=
  match errors with
  | [] => ret tt
  | error :: rest => emit (StError error) ;; show_errors rest
  end.

(** Lines 315-324. *)
Definition show_result (data : list (list pyvalue)) (errors : list pystr)
    : M unit :=
  match data with
  | _ :: _ =>
      emit (SetDf data) ;;
      emit (StSuccess (lit "成功解析 " ++ of_nat (length data) ++ lit " 条记录！"))
  | [] =>
      emit (StError no_records_message) ;;
      match errors with
      | [] => ret tt
      | _ :: _ =>
          emit (StWarning (lit "共发现 " ++ of_nat (length errors) ++ lit " 条解析错误")) ;;
          show_errors errors
      end
  end.

(** The whole handler.  It returns [data] and [errors].  The writes to
    [reset_table], which nothing reads, and the spinner are left out. *)
Definition convert (input_text : pystr)
    : M (list (list pyvalue) * list pystr) :=
  if negb (truthy (strip input_text)) then
    emit (StWarning (lit "请输入清洗服务记录文本！")) ;; stop
  else if negb key_configured then
    emit (StError (lit "缺少DeepSeek API密钥！请按照侧边栏说明配置")) ;; stop
  else
    tested <- test_endpoints endpoints [] ;;
    match tested with
    | (None, error_messages) => report_key_failure error_messages ;; stop
    | (Some endpoint, _) =>
        if max_records <? line_count input_text then
          emit (StWarning (too_many_message (line_count input_text))) ;; stop
        else
          response <- call endpoint (extraction_request input_text) ;;
          match response with
          | Raises e => report_call_failure e ;; stop
          | Response choices =>
              result <- read_response choices ;;
              show_result (fst result) (snd result) ;;
              ret result
          end
    end.

End WithEnv.

End Handler.

Import Handler.

(** ** The edited table (lines 347-357) *)

Module Table.

(** A cell of the table the grid hands back: a text, or a missing value. *)
Inductive cell :=
| NaN
| Str (s : pystr).

Record DataFrame := {
  df_columns : list pystr;
  df_rows : list (list cell)
}.

(** [len(df)] *)
Definition len (df : DataFrame) : nat := length (df_rows df).

Fixpoint index_of (name : pystr) (names : list pystr) : option nat :=
  match names with
  | [] => None
  | n :: rest =>
      if PyStr.eqb n name then Some 0
      else match index_of name rest with
           | Some i => Some (S i)
           | None => None
           end
  end.

Definition column_at (df : DataFrame) (idx : nat) : list cell :=
  map (fun row => nth idx row NaN) (df_rows df).

(** [df[name]]; [None] is the [KeyError] of a missing column. *)
Definition getitem (df : DataFrame) (name : pystr) : option (list cell) :=
  match index_of name (df_columns df) with
  | Some idx => Some (column_at df idx)
  | None => None
  end.

Fixpoint count_up (value : pystr) (counts : list (pystr * nat))
    : list (pystr * nat) :=
  match counts with
  | [] => [(value, 1)]
  | (v, n) :: rest =>
      if PyStr.eqb v value then (v, S n) :: rest
      else (v, n) :: count_up value rest
  end.

(** [series.value_counts()]: one entry per distinct value, missing values
    left out.  The entries are kept in order of first appearance (pandas
    sorts them by count, which lookups by label do not see). *)
Fixpoint value_counts_from (series : list cell) (counts : list (pystr * nat))
    : list (pystr * nat) :=
  match series with
  | [] => counts
  | NaN :: rest => value_counts_from rest counts
  | Str v :: rest => value_counts_from rest (count_up v counts)
  end.

Definition value_counts (series : list cell) : list (pystr * nat) :=
  value_counts_from series [].

(** [counts.get(label, default)] *)
Fixpoint counts_get (counts : list (pystr * nat)) (label : pystr)
    (default : nat) : nat :=
  match counts with
  | [] => default
  | (v, n) :: rest =>
      if PyStr.eqb v label then n else counts_get rest label default
  end.

(** [counts.empty] *)
Definition empty (counts : list (pystr * nat)) : bool :=
  match counts with [] => true | _ :: _ => false end.

Definition unpaid_marker : pystr := lit "未支付".
Definition paid_marker : pystr := lit "已支付".
Definition payment_status : pystr := lit "支付状态".

(** Lines 352-357: the three metrics. *)
Definition statistics (df : DataFrame) : M unit :=
  emit (Metric (lit "总记录数") (len df)) ;;
  match getitem df payment_status with
  | None => fault
  | Some series =>
      let payment_counts := value_counts series in
      if negb (empty payment_counts) then
        emit (Metric (lit "未支付数量") (counts_get payment_counts unpaid_marker 0)) ;;
        emit (Metric (lit "已支付数量") (counts_get payment_counts paid_marker 0))
      else ret tt
  end.

End Table.

Import Table.

(** ** The formatted export (lines 363-385) *)

Module Excel.

(** The options of a [conditional_format] call; [bg_color] is the
    background of the format object passed as ['format']. *)
Record cf_options := {
  cf_type : pystr;
  cf_criteria : pystr;
  cf_value : pystr;
  cf_bg_color : pystr
}.

(** Calls on the writer and on its worksheet, in the order they are made. *)
Inductive writer_call :=
| ToExcel (sheet_name : pystr) (header : list pystr) (rows : list (list cell))
| SetColumn (first_col last_col : Z) (width : option nat)
| ConditionalFormat (first_row first_col last_row last_col : Z)
    (options : cf_options)
| FreezePanes (row col : Z)
| Autofilter (first_row first_col last_row last_col : Z).

Definition sheet_name : pystr := lit "清洗服务记录".

(** [astype(str)] on one cell; a missing value prints as [nan] (pandas up
    to 2; later versions keep it missing, and [len] of it raises). *)
Definition astype_str (c : cell) : pystr :=
  match c with
  | NaN => lit "nan"
  | Str s => s
  end.

(** [max(df[col].astype(str).map(len).max(), len(col)) + 2].  On a table
    without rows the inner maximum is not a number, and so is the result
    ([None]). *)
Definition max_len (df : DataFrame) (idx : nat) (col : pystr) : option nat :=
  match df_rows df with
  | [] => None
  | _ :: _ =>
      Some (Nat.max
              (list_max (map (fun c => length (astype_str c)) (column_at df idx)))
              (length col) + 2)
  end.

(** The loop of lines 367-369, from index [idx] on. *)
Fixpoint set_columns (df : DataFrame) (idx : nat) (cols : list pystr)
    : list writer_call :=
  match cols with
  | [] => []
  | col :: rest =>
      SetColumn (Z.of_nat idx) (Z.of_nat idx) (max_len df idx col)
      :: set_columns df (S idx) rest
  end.

Definition highlight (value bg_color : pystr) : cf_options :=
  {| cf_type := lit "text";
     cf_criteria := lit "containing";
     cf_value := value;
     cf_bg_color := bg_color |}.

(** The body of the [with pd.ExcelWriter(..., engine='xlsxwriter')] block:
    the calls it makes when none of them raises.  The block stands inside a
    [try]; a call that raises (a width that is not a number, on a table
    without rows) ends it there. *)
Definition formatted_export (df : DataFrame) : list writer_call :=
  [ToExcel sheet_name (df_columns df) (df_rows df)]
  ++ set_columns df 0 (df_columns df)
  ++ [ConditionalFormat 1 7 (Z.of_nat (len df)) 7
        (highlight unpaid_marker (lit "#FFC7CE"));
      ConditionalFormat 1 7 (Z.of_nat (len df)) 7
        (highlight paid_marker (lit "#C6EFCE"));
      FreezePanes 1 0;
      Autofilter 0 0 (Z.of_nat (len df))
        (Z.of_nat (length (df_columns df)) - 1)].

(** The cells a [conditional_format] call covers. *)
Definition covers (c : writer_call) (row col : Z) : Prop :=
  match c with
  | ConditionalFormat r1 c1 r2 c2 _ =>
      (r1 <= row <= r2)%Z /\ (c1 <= col <= c2)%Z
  | _ => False
  end.

Definition is_highlight (c : writer_call) : bool :=
  match c with ConditionalFormat _ _ _ _ _ => true | _ => false end.

End Excel.

Import Excel.

(** ** Vocabulary of the statements *)

(** The mappings of a parsed array, in order. *)
Fixpoint mappings (parsed : list pyvalue) : list (list (pyvalue * pyvalue)) :=
  match parsed with
  | [] => []
  | PyDict entries :: rest => entries :: mappings rest
  | _ :: rest => mappings rest
  end.

(** The messages of the malformed elements of an array, when [seen]
    records have been appended so far. *)
Fixpoint malformed_messages (env : Env) (parsed : list pyvalue) (seen : nat)
    : list pystr :=
  match parsed with
  | [] => []
  | PyDict _ :: rest => malformed_messages env rest (S seen)
  | v :: rest => record_error env (seen + 1) v :: malformed_messages env rest seen
  end.

(** The replies the validator cannot use: no content, a text that [eval]
    rejects, or a value that is not a list. *)
Inductive unusable (env : Env) (choices : list (option pystr)) : Prop :=
| NoContent :
    usable_content choices = None -> unusable env choices
| NotParseable content e :
    usable_content choices = Some content ->
    py_eval env content = RaisesException e -> unusable env choices
| NotAnArray content v :
    usable_content choices = Some content ->
    py_eval env content = Evaluates v -> is_list v = false ->
    unusable env choices.

(** An endpoint passes the test when the test call returns at least one
    choice. *)
Definition passes (env : Env) (endpoint : pystr) : bool :=
  match create env endpoint test_request with
  | Response (_ :: _) => true
  | _ => false
  end.

(** The failure reason kept for an endpoint: its name and the text of the
    exception its test call raised. *)
Definition reason (env : Env) (endpoint : pystr) : list pystr :=
  match create env endpoint test_request with
  | Raises e => [endpoint ++ lit ": " ++ e]
  | _ => []
  end.

(** The completion calls of a trace, in order. *)
Fixpoint requests (t : list event) : list (pystr * request) :=
  match t with
  | [] => []
  | Create base_url req :: t' => (base_url, req) :: requests t'
  | _ :: t' => requests t'
  end.

(** One test call per endpoint. *)
Definition probes (tried : list pystr) : list event :=
  map (fun endpoint => Create endpoint test_request) tried.

Definition cell_eq_dec (a b : cell) : {a = b} + {a <> b}.
Proof. decide equality. apply (list_eq_dec N.eq_dec). Defined.

(** The payment-status cell of a row of the fixed schema (ninth field). *)
Definition status_of (row : list cell) : cell := nth 8 row NaN.

(** ** Scenarios *)

Module Scenario.

Definition key : pystr := lit "sk-0123456789abcdef0123456789abcdef01234567".

(** [str()] on the values the scenarios print: a [str] prints as itself.
    Containers are abbreviated; no scenario prints one. *)
Definition show (v : pyvalue) : pystr :=
  match v with
  | PyNone => lit "None"
  | PyBool true => lit "True"
  | PyBool false => lit "False"
  | PyInt z =>
      if (z <? 0)%Z then lit "-" ++ of_nat (Z.to_nat (- z))
      else of_nat (Z.to_nat z)
  | PyStr s => s
  | PyObject repr => repr
  | PyList _ => lit "[...]"
  | PyTuple _ => lit "(...)"
  | PyDict _ => lit "{...}"
  end.

(** [str()] raises on an [int] of more than 4300 digits, and on nothing
    else the scenarios use. *)
Definition show_raises (v : pyvalue) : option pystr :=
  match v with
  | PyInt z =>
      if (10 ^ 4300 <=? Z.abs z)%Z then
        Some (lit "Exceeds the limit (4300 digits) for integer string conversion; use sys.set_int_max_str_digits() to increase the limit")
      else None
  | _ => None
  end.

(** An extractor that answers [content] on the endpoints [up] accepts and
    refuses the connection on the others, with an [eval] that gives
    [result]. *)
Definition world (up : pystr -> bool) (content : pystr) (result : eval_result)
    : Env :=
  {| deepseek_api_key := Some key;
     create := fun base_url _ =>
       if up base_url then Response [Some content]
       else Raises (lit "Connection error.");
     py_eval := fun _ => result;
     py_str := show;
     py_str_raises := show_raises |}.

Definition all_up (base_url : pystr) : bool := true.
Definition all_down (base_url : pystr) : bool := false.
Definition only_v1 (base_url : pystr) : bool :=
  PyStr.eqb base_url (lit "https://api.deepseek.com/v1").

(** [n] copies of [line], each followed by [sep], then a last [line]. *)
Fixpoint joined (n : nat) (line sep : pystr) : pystr :=
  match n with
  | 0 => line
  | S n' => line ++ sep ++ joined n' line sep
  end.

(** 51 one-letter lines. *)
Definition lines51 : pystr := joined 50 (lit "a") [newline].

(** 30 records with a blank line between two records. *)
Definition thirty_records : pystr :=
  joined 29 (lit "王师傅 龙湖源著 8栋12-3 13800138000 空调维修 已支付")
         [newline; newline].

Definition one_record : pystr :=
  lit "王师傅 龙湖源著 8栋12-3 13800138000 空调维修 已支付".

(** The array [['x', 'y']]. *)
Definition two_malformed : pyvalue :=
  PyList [PyStr (lit "x"); PyStr (lit "y")].

(** A mapping, a stray string, a mapping. *)
Definition mixed : pyvalue :=
  PyList [PyDict [(PyStr (lit "师傅"), PyStr (lit "王师傅"));
                  (PyStr (lit "支付状态"), PyStr (lit "已支付"))];
          PyStr (lit "x");
          PyDict [(PyStr (lit "师傅"), PyStr (lit "李雪霜"));
                  (PyStr (lit "颜色"), PyStr (lit "红"))]].

(** A row of the fixed schema with the given payment status. *)
Definition row_with (status : pystr) : list cell :=
  [Str (lit "王师傅"); Str (lit "空调维修"); Str (lit "龙湖源著");
   Str (lit "8栋12-3"); Str []; Str (lit "13800138000");
   Str (lit "不制冷 加氟200"); Str (lit "200元"); Str status; Str []].

(** The four-row table with statuses unpaid, paid, unpaid and empty. *)
Definition four_rows : DataFrame :=
  {| df_columns := columns;
     df_rows := [row_with (lit "未支付"); row_with (lit "已支付");
                 row_with (lit "未支付"); row_with []] |}.

Definition no_rows : DataFrame := {| df_columns := columns; df_rows := [] |}.

End Scenario.

(** ** The API key (lines 9-34 and 56-98) *)

Module Credentials.


(** Truth value of a key that may be [None]. *)
Definition has_key (key : option pystr) : bool :=
  match key with
  | Some k => truthy k
  | None => false
  end.


(** [s.startswith(prefix)] *)
Fixpoint startswith (s prefix : pystr) : bool :=
  match prefix, s with
  | [], _ => true
  | p :: prefix', c :: s' => (c =? p)%N && startswith s' prefix'
  | _ :: _, [] => false
  end.

(** [' ' in s] *)
Definition has_space (s : pystr) : bool := existsb (N.eqb 32) s.

(** Line 71: the part of the key that is displayed. *)
Definition masked_key (key : pystr) : pystr :=
  if 12 <? length key then
    firstn 8 key ++ lit "..." ++ skipn (length key - 4) key
  else lit "****".

(** What the sidebar shows: messages, and one markdown text. *)
Inductive item :=
| Shown (e : event)
| Markdown (text : pystr).

Definition local_setup_help : pystr :=
  lit "
        **本地配置方法:**
        1. 创建 `.env` 文件并添加:
           ```
           DEEPSEEK_API_KEY=sk-your-api-key
           ```
        2. 或在运行前设置环境变量:
           ```bash
           export DEEPSEEK_API_KEY=sk-your-api-key
           streamlit run data.py
           ```
        ".

(** Lines 64-98 on the key loaded at start and the text typed in the
    sidebar: the items shown and the key the rest of the page uses.  The
    subheader, the caption with the clock and the reload button are left
    out. *)
Definition sidebar (loaded : option pystr) (manual_key : pystr)
    : list item * option pystr :=
  let key := if truthy manual_key then Some manual_key else loaded in
  match key with
  | Some k =>
      if truthy k then
        let current := Shown (StInfo (lit "当前密钥: " ++ masked_key k)) in
        if negb (startswith k (lit "sk-")) || (length k <? 40) then
          ([current;
            Shown (StError (lit "⚠️ API密钥格式无效"));
            Shown (StInfo (lit "密钥应以'sk-'开头，长度至少40字符"))],
           Some k)
        else if has_space k then
          ([current; Shown (StWarning (lit "密钥包含空格，已自动清理"))],
           Some (strip k))
        else ([current], Some k)
      else
        ([Shown (StError (lit "API密钥未配置!"));
          Shown (StInfo (lit "请设置环境变量 DEEPSEEK_API_KEY 或手动输入密钥"));
          Markdown local_setup_help],
         key)
  | None =>
      ([Shown (StError (lit "API密钥未配置!"));
        Shown (StInfo (lit "请设置环境变量 DEEPSEEK_API_KEY 或手动输入密钥"));
        Markdown local_setup_help],
       None)
  end.

End Credentials.

Import Credentials.

(** ** Vocabulary of the further statements *)

(** The handler from the reply of the extraction call on. *)
Definition after_call (env : Env) (response : reply)
    : M (list (list pyvalue) * list pystr) :=
  match response with
  | Raises e => report_call_failure e ;; stop
  | Response choices =>
      result <- read_response env choices ;;
      show_result (fst result) (snd result) ;;
      ret result
  end.

(** The five ways a run of the handler can go. *)
Inductive run_shape (prompt : pystr) (env : Env) (input_text : pystr) : Prop :=
| BlankInput :
    truthy (strip input_text) = false ->
    convert prompt env input_text
    = ([StWarning (lit "请输入清洗服务记录文本！")], Stop) ->
    run_shape prompt env input_text
| MissingKey :
    truthy (strip input_text) = true ->
    key_configured env = false ->
    convert prompt env input_text
    = ([StError (lit "缺少DeepSeek API密钥！请按照侧边栏说明配置")], Stop) ->
    run_shape prompt env input_text
| NoEndpoint :
    truthy (strip input_text) = true ->
    key_configured env = true ->
    (forall e, In e endpoints -> passes env e = false) ->
    convert prompt env input_text
    = (probes endpoints
         ++ trace (report_key_failure (flat_map (reason env) endpoints)),
       Stop) ->
    run_shape prompt env input_text
| TooManyLines before endpoint after :
    truthy (strip input_text) = true ->
    key_configured env = true ->
    endpoints = before ++ endpoint :: after ->
    max_records < line_count input_text ->
    convert prompt env input_text
    = (probes (before ++ [endpoint])
         ++ [SidebarSuccess (lit "API端点可用: " ++ endpoint);
             StWarning (too_many_message (line_count input_text))],
       Stop) ->
    run_shape prompt env input_text
| Extraction before endpoint after :
    truthy (strip input_text) = true ->
    key_configured env = true ->
    endpoints = before ++ endpoint :: after ->
    line_count input_text <= max_records ->
    convert prompt env input_text
    = (probes (before ++ [endpoint])
         ++ [SidebarSuccess (lit "API端点可用: " ++ endpoint);
             Create endpoint (extraction_request prompt input_text)]
         ++ trace (after_call env
                     (create env endpoint (extraction_request prompt input_text))),
       outcome (after_call env
                  (create env endpoint (extraction_request prompt input_text)))) ->
    run_shape prompt env input_text.

(** The error messages a trace shows, in order. *)
Fixpoint shown_errors (t : list event) : list pystr :=
  match t with
  | [] => []
  | StError msg :: t' => msg :: shown_errors t'
  | _ :: t' => shown_errors t'
  end.

(** The warnings a trace shows, in order. *)
Fixpoint shown_warnings (t : list event) : list pystr :=
  match t with
  | [] => []
  | StWarning msg :: t' => msg :: shown_warnings t'
  | _ :: t' => shown_warnings t'
  end.

(** The tables a trace stores in the session, in order. *)
Fixpoint stored (t : list event) : list (list (list pyvalue)) :=
  match t with
  | [] => []
  | SetDf data :: t' => data :: stored t'
  | _ :: t' => stored t'
  end.

(** ** Further scenarios *)

Module Cases.

(** A well-formed key with a space in the middle. *)
Definition spaced_key : pystr :=
  lit "sk-0123456789abcdef 0123456789abcdef01234567".

(** A key that does not start with the expected prefix. *)
Definition odd_key : pystr := lit "pk-0123".


(** An extractor that answers on every endpoint, with a given key. *)
Definition keyed (key : option pystr) : Env :=
  {| deepseek_api_key := key;
     create := fun _ _ => Response [Some (lit "[]")];
     py_eval := fun _ => Evaluates (PyList []);
     py_str := Scenario.show;
     py_str_raises := Scenario.show_raises |}.

(** A table whose columns lack the payment status. *)
Definition two_columns : DataFrame :=
  {| df_columns := [lit "师傅"; lit "费用"];
     df_rows := [[Str (lit "王师傅"); Str (lit "200元")]] |}.

(** An array of two mappings. *)
Definition two_mappings : list pyvalue :=
  [PyDict [(PyStr (lit "师傅"), PyStr (lit "王师傅"))];
   PyDict [(PyStr (lit "师傅"), PyStr (lit "李雪霜"))]].

End Cases.

(** ** Vocabulary for printing failures *)

(** Printing succeeds on every element that is not a mapping. *)
Definition printable (env : Env) (parsed : list pyvalue) : Prop :=
  forall v, In v parsed -> is_dict v = false -> py_str_raises env v = None.

(** The elements the loop gets through: all those before the first element
    that is not a mapping and whose printing raises. *)
Fixpoint processed (env : Env) (parsed : list pyvalue) : list pyvalue :=
  match parsed with
  | [] => []
  | PyDict entries :: rest => PyDict entries :: processed env rest
  | v :: rest =>
      match py_str_raises env v with
      | Some _ => []
      | None => v :: processed env rest
      end
  end.

(** The exception that ends the loop, if one does. *)
Fixpoint interruption (env : Env) (parsed : list pyvalue) : option pystr :=
  match parsed with
  | [] => None
  | PyDict _ :: rest => interruption env rest
  | v :: rest =>
      match py_str_raises env v with
      | Some e => Some e
      | None => interruption env rest
      end
  end.

Module Edge.

(** An [int] of 4301 digits. *)
Definition huge : pyvalue := PyInt (10 ^ 4300).

(** A mapping, the huge [int], a mapping, a string: two mappings and two
    other elements. *)
Definition around_huge : list pyvalue :=
  [PyDict [(PyStr (lit "师傅"), PyStr (lit "a"))];
   huge;
   PyDict [(PyStr (lit "师傅"), PyStr (lit "b"))];
   PyStr (lit "x")].

(** An extractor whose test call returns a reply without choices on every
    endpoint. *)
Definition silent : Env :=
  {| deepseek_api_key := Some Scenario.key;
     create := fun _ _ => Response [];
     py_eval := fun _ => Evaluates (PyList []);
     py_str := Scenario.show;
     py_str_raises := Scenario.show_raises |}.


End Edge.

(** * Properties *)

(** ** Strings *)

Lemma eqb_eq (s t : pystr) : PyStr.eqb s t = true <-> s = t.
Proof.
  revert t; induction s as [|c s IH]; intros [|d t]; simpl;
    try (split; [discriminate | discriminate]); try tauto.
  rewrite andb_true_iff, N.eqb_eq, IH.
  split; [intros [-> ->]; reflexivity | intros H; injection H; auto].
Qed.

Lemma eqb_refl (s : pystr) : PyStr.eqb s s = true.
Proof. apply eqb_eq; reflexivity. Qed.

Lemma eqb_neq (s t : pystr) : PyStr.eqb s t = false <-> s <> t.
Proof.
  rewrite <- eqb_eq. destruct (PyStr.eqb s t); split; congruence.
Qed.

Example lit_reads_code_points : lit "未支付" = [26410; 25903; 20184]%N.
Proof. reflexivity. Qed.

Example strip_drops_outer_whitespace :
  strip ([32; 10]%N ++ lit "a b" ++ [12288; 10]%N) = lit "a b".
Proof. reflexivity. Qed.

Example split_keeps_blank_segments :
  split_lines (lit "a" ++ [newline; newline] ++ lit "b") = [lit "a"; []; lit "b"].
Proof. reflexivity. Qed.

Example of_nat_prints_decimal : of_nat 59 = lit "59".
Proof. reflexivity. Qed.

Lemma split_lines_length (s : pystr) :
  length (split_lines s) = S (count_occ N.eq_dec s newline).
Proof.
  induction s as [|c s IH]; [reflexivity|].
  cbn [split_lines count_occ].
  destruct (N.eqb_spec c newline) as [->|Hne].
  - destruct (N.eq_dec newline newline) as [_|Habs]; [|congruence].
    simpl. rewrite IH. reflexivity.
  - destruct (N.eq_dec c newline) as [Heq|_]; [congruence|].
    destruct (split_lines s) as [|seg rest]; [discriminate IH|].
    simpl in *. exact IH.
Qed.

(** ** The validator *)

Lemma mappings_app (l1 l2 : list pyvalue) :
  mappings (l1 ++ l2) = mappings l1 ++ mappings l2.
Proof.
  induction l1 as [|v l1 IH]; [reflexivity|].
  destruct v; simpl; rewrite ?IH; reflexivity.
Qed.

Lemma mappings_length (l : list pyvalue) :
  length (mappings l) = length (filter is_dict l).
Proof.
  induction l as [|v l IH]; [reflexivity|].
  destruct v; simpl; rewrite ?IH; reflexivity.
Qed.

Lemma processed_printable env parsed :
  printable env parsed ->
  processed env parsed = parsed /\ interruption env parsed = None.
Proof.
  induction parsed as [|v rest IH]; intros Hp; [split; reflexivity|].
  assert (Hrest : printable env rest)
    by (intros w Hw; apply Hp; right; exact Hw).
  destruct (IH Hrest) as [IHp IHi].
  destruct v; cbn [processed interruption];
    try (rewrite (Hp _ (or_introl eq_refl) eq_refl));
    rewrite ?IHp, ?IHi; split; reflexivity.
Qed.

(** The loop, whatever the elements: rows for the mappings it got through,
    messages for the other elements it got through, and the parse-failure
    message when printing ended it. *)
Lemma validate_records_spec env parsed data errors :
  validate_records env parsed data errors
  = (data ++ map row_of (mappings (processed env parsed)),
     errors ++ malformed_messages env (processed env parsed) (length data)
       ++ match interruption env parsed with
          | Some e => [parse_error e]
          | None => []
          end).
Proof.
  revert data errors; induction parsed as [|v rest IH]; intros data errors.
  - simpl. rewrite !app_nil_r. reflexivity.
  - destruct v; cbn [validate_records processed interruption];
      try (destruct (py_str_raises env _) as [e|];
           [cbn [mappings map malformed_messages app];
            rewrite app_nil_r; reflexivity
           |rewrite IH; cbn [mappings map malformed_messages app];
            rewrite <- !app_assoc; reflexivity]).
    rewrite IH. cbn [mappings map malformed_messages app].
    rewrite <- !app_assoc, length_app, Nat.add_1_r. reflexivity.
Qed.

Lemma validate_records_data env parsed data errors :
  printable env parsed ->
  fst (validate_records env parsed data errors)
  = data ++ map row_of (mappings parsed).
Proof.
  intros Hp. rewrite validate_records_spec.
  destruct (processed_printable Hp) as [-> _]. reflexivity.
Qed.

Lemma validate_records_errors env parsed data errors :
  printable env parsed ->
  snd (validate_records env parsed data errors)
  = errors ++ malformed_messages env parsed (length data).
Proof.
  intros Hp. rewrite validate_records_spec.
  destruct (processed_printable Hp) as [-> ->].
  cbn [snd]. rewrite app_nil_r. reflexivity.
Qed.

Lemma malformed_messages_length env parsed seen :
  length (malformed_messages env parsed seen)
  = length (filter (fun v => negb (is_dict v)) parsed).
Proof.
  revert seen; induction parsed as [|v rest IH]; intros seen; [reflexivity|].
  destruct v; simpl; rewrite IH; reflexivity.
Qed.

Lemma printable_app env l1 l2 :
  printable env (l1 ++ l2) <-> printable env l1 /\ printable env l2.
Proof.
  unfold printable. split.
  - intros H. split; intros v Hv; apply H; apply in_or_app; auto.
  - intros [H1 H2] v Hv. apply in_app_or in Hv. destruct Hv; auto.
Qed.

Lemma processed_app_raising env before bad after e :
  printable env before -> is_dict bad = false ->
  py_str_raises env bad = Some e ->
  processed env (before ++ bad :: after) = before
  /\ interruption env (before ++ bad :: after) = Some e.
Proof.
  intros Hp Hbad He. induction before as [|v rest IH].
  - destruct bad; try discriminate Hbad;
      cbn [app processed interruption]; rewrite He; split; reflexivity.
  - assert (Hrest : printable env rest)
      by (intros w Hw; apply Hp; right; exact Hw).
    destruct (IH Hrest) as [IHp IHi].
    destruct v; cbn [app processed interruption];
      try (rewrite (Hp _ (or_introl eq_refl) eq_refl));
      rewrite ?IHp, ?IHi; split; reflexivity.
Qed.

Lemma row_of_columns (entries : list (pyvalue * pyvalue)) :
  row_of entries = map (fun key => dict_get entries key (PyStr [])) columns.
Proof. reflexivity. Qed.

(** A key that is absent from the mapping reads as the empty string. *)
Lemma dict_get_absent entries key :
  (forall v, ~ In (PyStr key, v) entries) ->
  dict_get entries key (PyStr []) = PyStr [].
Proof.
  induction entries as [|[k v] rest IH]; intros Habs; [reflexivity|].
  assert (Hrest : forall v0, ~ In (PyStr key, v0) rest)
    by (intros v0 Hin; apply (Habs v0); right; exact Hin).
  destruct k; simpl; auto.
  destruct (PyStr.eqb s key) eqn:E; auto.
  apply eqb_eq in E; subst s. exfalso. apply (Habs v). left; reflexivity.
Qed.

(** A key that is present reads as the value stored under it. *)
Lemma dict_get_present entries key v :
  In (PyStr key, v) entries ->
  (forall v1 v2, In (PyStr key, v1) entries -> In (PyStr key, v2) entries -> v1 = v2) ->
  dict_get entries key (PyStr []) = v.
Proof.
  induction entries as [|[k w] rest IH]; intros Hin Huniq; [destruct Hin|].
  destruct k; simpl;
    try (destruct Hin as [Heq|Hin]; [discriminate Heq|];
         apply IH; [exact Hin | intros; apply Huniq; right; assumption]).
  destruct (PyStr.eqb s key) eqn:E.
  - apply eqb_eq in E; subst s.
    apply Huniq; [left; reflexivity | exact Hin].
  - destruct Hin as [Heq|Hin].
    + injection Heq as -> ->. rewrite eqb_refl in E; discriminate.
    + apply IH; [exact Hin | intros; apply Huniq; right; assumption].
Qed.

(** C3, as the code has it: a reply that evaluates to an array, all of
    whose elements other than mappings can be printed, gives one row per
    mapping in the array, in the array's order, each row being the ten fields
    read by key with the empty string for an absent key, and one error per
    element that is not a mapping; such an element does not stop the loop,
    the mappings after it are still turned into rows.  When printing an
    element raises, the loop ends there: the rows and errors of the elements
    before it are kept and the parse-failure message is the last error. *)
Theorem validator_keeps_mappings_counts_errors env content parsed :
  py_eval env content = Evaluates (PyList parsed) ->
  (printable env parsed ->
   exists data errors,
     parse_reply env content = Some (data, errors)
     /\ data = map (fun entries =>
                      map (fun key => dict_get entries key (PyStr [])) columns)
                   (mappings parsed)
     /\ length data = length (filter is_dict parsed)
     /\ length errors = length (filter (fun v => negb (is_dict v)) parsed)
     /\ (forall before bad after,
           parsed = before ++ bad :: after -> is_dict bad = false ->
           data = map row_of (mappings before) ++ map row_of (mappings after)))
  /\ (forall before bad after e,
        parsed = before ++ bad :: after ->
        printable env before -> is_dict bad = false ->
        py_str_raises env bad = Some e ->
        parse_reply env content
        = Some (map row_of (mappings before),
                malformed_messages env before 0 ++ [parse_error e])).
Proof.
  intros Heval. split.
  - intros Hp.
    exists (fst (validate_records env parsed [] [])),
           (snd (validate_records env parsed [] [])).
    split; [unfold parse_reply; rewrite Heval; rewrite <- surjective_pairing;
            reflexivity|].
    rewrite (validate_records_data _ _ Hp), (validate_records_errors _ _ Hp).
    cbn [app length].
    split; [reflexivity|].
    split; [rewrite length_map; apply mappings_length|].
    split; [apply malformed_messages_length|].
    intros before bad after -> Hbad.
    rewrite mappings_app, map_app.
    destruct bad; try discriminate Hbad; reflexivity.
  - intros before bad after e -> Hp Hbad He.
    unfold parse_reply. rewrite Heval, validate_records_spec.
    destruct (@processed_app_raising env before bad after e Hp Hbad He)
      as [-> ->].
    reflexivity.
Qed.

Lemma validator_keeps_mappings_counts_errors_witness :
  exists data errors,
    parse_reply (Scenario.world Scenario.all_up (lit "reply") (Evaluates Scenario.mixed))
                (lit "reply") = Some (data, errors)
    /\ length data = 2 /\ length errors = 1.
Proof.
  destruct (proj1 (@validator_keeps_mappings_counts_errors
              (Scenario.world Scenario.all_up (lit "reply") (Evaluates Scenario.mixed))
              (lit "reply")
              [PyDict [(PyStr (lit "师傅"), PyStr (lit "王师傅"));
                       (PyStr (lit "支付状态"), PyStr (lit "已支付"))];
               PyStr (lit "x");
               PyDict [(PyStr (lit "师傅"), PyStr (lit "李雪霜"));
                       (PyStr (lit "颜色"), PyStr (lit "红"))]]
              eq_refl))
    as (data & errors & Hrun & _ & Hdata & Herrors & _).
  - intros v [<-|[<-|[<-|[]]]] Hv; try discriminate Hv; reflexivity.
  - exists data, errors.
    split; [exact Hrun|]. split; [exact Hdata | exact Herrors].
Defined.

(** C3 as stated fails: the array holds two mappings and two other
    elements, the second element is an [int] of 4301 digits that cannot be
    printed, and the loop ends on it with one row and one error; the mapping
    and the string after it are never looked at. *)
Lemma printing_failure_ends_the_loop :
  length (filter is_dict Edge.around_huge) = 2
  /\ length (filter (fun v => negb (is_dict v)) Edge.around_huge) = 2
  /\ parse_reply
       (Scenario.world Scenario.all_up (lit "reply")
          (Evaluates (PyList Edge.around_huge)))
       (lit "reply")
     = Some ([[PyStr (lit "a"); PyStr []; PyStr []; PyStr []; PyStr [];
               PyStr []; PyStr []; PyStr []; PyStr []; PyStr []]],
             [lit "解析失败: Exceeds the limit (4300 digits) for integer string conversion; use sys.set_int_max_str_digits() to increase the limit"]).
Proof.
  split; [reflexivity|]. split; [reflexivity|].
  vm_compute. reflexivity.
Qed.

(** What the loop writes for each malformed element: the number is one more
    than the count of rows appended before it. *)
Lemma parse_reply_errors env content parsed :
  py_eval env content = Evaluates (PyList parsed) ->
  printable env parsed ->
  option_map snd (parse_reply env content)
  = Some (malformed_messages env parsed 0).
Proof.
  intros Heval Hp. unfold parse_reply. rewrite Heval. simpl.
  rewrite (validate_records_errors _ _ Hp). reflexivity.
Qed.

(** C4: on the array [['x', 'y']] both elements are malformed, and the
    message for the second one, which stands at position 2, carries the
    number 1: the number written is one more than the count of rows kept so
    far, not the position in the array. *)
Theorem second_malformed_element_numbered_one :
  parse_reply
    (Scenario.world Scenario.all_up (lit "['x', 'y']") (Evaluates Scenario.two_malformed))
    (lit "['x', 'y']")
  = Some ([], [lit "第 1 条记录格式错误: x"; lit "第 1 条记录格式错误: y"])
  /\ record_error
       (Scenario.world Scenario.all_up (lit "['x', 'y']") (Evaluates Scenario.two_malformed))
       2 (PyStr (lit "y"))
     = lit "第 2 条记录格式错误: y"
  /\ lit "第 1 条记录格式错误: y" <> lit "第 2 条记录格式错误: y".
Proof.
  split; [vm_compute; reflexivity|].
  split; [vm_compute; reflexivity|].
  vm_compute. discriminate.
Qed.

(** C5, as the code has it: a reply without content, a reply on which
    [eval] raises an [Exception] and a reply that evaluates to something else
    than a list all give no row and exactly one diagnostic, and no exception
    leaves the block: either the one error message is shown and the run
    stops (no content), or the block ends with an empty [data] and a
    one-element [errors].  A reply on which [eval] raises something that is
    not an [Exception] is not caught: the exception leaves the handler. *)
Theorem unusable_reply_gives_one_error env choices :
  (unusable env choices ->
   outcome (read_response env choices) <> Fault
   /\ exists diagnostic,
        truthy diagnostic = true
        /\ (read_response env choices = ([StError diagnostic], Stop)
            \/ read_response env choices = ([], Continue ([], [diagnostic]))))
  /\ (forall content,
        usable_content choices = Some content ->
        py_eval env content = RaisesBaseException ->
        read_response env choices = ([], Fault)).
Proof.
  split.
  - intros [Hnone | content e Hsome Heval | content v Hsome Heval Hlist];
      unfold read_response.
    + rewrite Hnone. split; [discriminate|].
      exists no_records_message. split; [reflexivity|]. left; reflexivity.
    + rewrite Hsome. unfold parse_reply. rewrite Heval.
      split; [discriminate|].
      exists (parse_error e). split; [reflexivity|]. right; reflexivity.
    + rewrite Hsome. unfold parse_reply. rewrite Heval.
      split; [destruct v; discriminate|].
      exists not_a_list_error. split; [reflexivity|].
      right. destruct v; try discriminate Hlist; reflexivity.
  - intros content Hsome Heval. unfold read_response, parse_reply.
    rewrite Hsome, Heval. reflexivity.
Qed.

Lemma unusable_reply_gives_one_error_witness :
  read_response
    (Scenario.world Scenario.all_up (lit "sorry") (RaisesException (lit "invalid syntax")))
    [Some (lit "sorry")]
  = ([], Continue ([], [lit "解析失败: invalid syntax"])).
Proof.
  destruct (proj1 (@unusable_reply_gives_one_error
              (Scenario.world Scenario.all_up (lit "sorry")
                 (RaisesException (lit "invalid syntax")))
              [Some (lit "sorry")])
              (@NotParseable
                 (Scenario.world Scenario.all_up (lit "sorry")
                    (RaisesException (lit "invalid syntax")))
                 [Some (lit "sorry")] (lit "sorry")
                 (lit "invalid syntax") eq_refl eq_refl))
    as [_ [diagnostic [_ [Hstop | Hcont]]]].
  - discriminate Hstop.
  - rewrite Hcont. injection Hcont as Hd. rewrite <- Hd. reflexivity.
Defined.

(** C5 as stated fails: the reply [exit()] is not the expected structure,
    [eval] raises [SystemExit] on it, which [except Exception] does not
    catch: the block ends with an exception and no diagnostic. *)
Lemma exit_reply_leaves_the_handler :
  read_response
    (Scenario.world Scenario.all_up (lit "exit()") RaisesBaseException)
    [Some (lit "exit()")]
  = ([], Fault)
  /\ outcome (convert [] (Scenario.world Scenario.all_up (lit "exit()")
                            RaisesBaseException)
                      Scenario.one_record) = Fault.
Proof. split; vm_compute; reflexivity. Qed.

(** ** The endpoint loop *)

Lemma requests_app (t1 t2 : list event) :
  requests (t1 ++ t2) = requests t1 ++ requests t2.
Proof.
  induction t1 as [|e t1 IH]; [reflexivity|].
  destruct e; simpl; rewrite ?IH; reflexivity.
Qed.

Lemma requests_probes (tried : list pystr) :
  requests (probes tried) = map (fun endpoint => (endpoint, test_request)) tried.
Proof.
  induction tried as [|e l IH]; [reflexivity|]. simpl. rewrite IH. reflexivity.
Qed.

Lemma test_endpoints_none env todo error_messages :
  (forall e, In e todo -> passes env e = false) ->
  test_endpoints env todo error_messages
  = (probes todo, Continue (None, error_messages ++ flat_map (reason env) todo)).
Proof.
  revert error_messages; induction todo as [|endpoint rest IH];
    intros error_messages Hfail.
  - simpl. rewrite app_nil_r. reflexivity.
  - assert (Hrest : forall e, In e rest -> passes env e = false)
      by (intros e He; apply Hfail; right; exact He).
    pose proof (Hfail endpoint (or_introl eq_refl)) as Hhere.
    unfold passes in Hhere.
    cbn [test_endpoints call bind emit ret flat_map probes map app].
    unfold reason at 1.
    destruct (create env endpoint test_request) as [e|[|c cs]];
      [ | | discriminate Hhere].
    + rewrite IH by exact Hrest. simpl. rewrite <- app_assoc. reflexivity.
    + rewrite IH by exact Hrest. reflexivity.
Qed.

Lemma test_endpoints_first env before endpoint after error_messages :
  (forall e, In e before -> passes env e = false) ->
  passes env endpoint = true ->
  test_endpoints env (before ++ endpoint :: after) error_messages
  = (probes (before ++ [endpoint])
       ++ [SidebarSuccess (lit "API端点可用: " ++ endpoint)],
     Continue (Some endpoint, error_messages ++ flat_map (reason env) before)).
Proof.
  revert error_messages; induction before as [|b before IH];
    intros error_messages Hfail Hpass.
  - unfold passes in Hpass.
    cbn [app test_endpoints call bind emit ret flat_map probes map].
    destruct (create env endpoint test_request) as [e|[|c cs]];
      try discriminate Hpass.
    simpl. rewrite app_nil_r. reflexivity.
  - assert (Hrest : forall e, In e before -> passes env e = false)
      by (intros e He; apply Hfail; right; exact He).
    pose proof (Hfail b (or_introl eq_refl)) as Hhere.
    unfold passes in Hhere.
    cbn [app test_endpoints call bind emit ret flat_map probes map].
    unfold reason at 1.
    destruct (create env b test_request) as [e|[|c cs]];
      [ | | discriminate Hhere].
    + rewrite (IH _ Hrest Hpass). simpl. rewrite <- app_assoc. reflexivity.
    + rewrite (IH _ Hrest Hpass). reflexivity.
Qed.

(** ** The handler *)

Lemma show_errors_requests errors : requests (trace (show_errors errors)) = [].
Proof.
  induction errors as [|e rest IH]; [reflexivity|].
  cbn [show_errors]. unfold bind, emit, trace in *.
  destruct (show_errors rest) as [t [[]| |]]; simpl in *; exact IH.
Qed.

Lemma show_result_requests data errors :
  requests (trace (show_result data errors)) = [].
Proof.
  destruct data as [|row data]; [|reflexivity].
  destruct errors as [|e errors]; [reflexivity|].
  pose proof (show_errors_requests (e :: errors)) as H.
  unfold show_result, bind, emit, trace in *.
  destruct (show_errors (e :: errors)) as [t [[]| |]]; simpl in *; exact H.
Qed.

Lemma show_result_continues data errors :
  outcome (show_result data errors) = Continue tt.
Proof.
  destruct data as [|row data]; [|reflexivity].
  destruct errors as [|e errors]; [reflexivity|].
  assert (H : forall l, outcome (show_errors l) = Continue tt).
  { induction l as [|x l IH]; [reflexivity|].
    cbn [show_errors]. unfold bind, emit, outcome in *.
    destruct (show_errors l) as [t [[]| |]]; simpl in *;
      try discriminate IH; reflexivity. }
  specialize (H (e :: errors)).
  unfold show_result, bind, emit, outcome in *.
  destruct (show_errors (e :: errors)) as [t [[]| |]]; simpl in *;
    try discriminate H; reflexivity.
Qed.

Lemma read_response_requests env choices :
  requests (trace (read_response env choices)) = [].
Proof.
  unfold read_response.
  destruct (usable_content choices); [|reflexivity].
  destruct (parse_reply env p); reflexivity.
Qed.

Lemma report_key_failure_trace (error_messages : list pystr) :
  trace (report_key_failure error_messages)
  = [StError (lit "API密钥验证失败: 所有API端点测试失败");
     StInfo (lit "请检查：");
     StInfo (lit "1. API密钥是否正确且未过期");
     StInfo (lit "2. 密钥是否完整复制（以'sk-'开头）");
     StInfo (lit "3. 访问 https://platform.deepseek.com 检查账户状态");
     Expander (lit "详细错误信息") error_messages].
Proof. vm_compute. reflexivity. Qed.

Lemma convert_all_fail prompt env input_text :
  truthy (strip input_text) = true ->
  key_configured env = true ->
  (forall e, In e endpoints -> passes env e = false) ->
  convert prompt env input_text
  = (probes endpoints
       ++ trace (report_key_failure (flat_map (reason env) endpoints)),
     Stop).
Proof.
  intros Htext Hkey Hfail. unfold convert.
  rewrite Htext, Hkey. cbn [negb].
  rewrite (test_endpoints_none env endpoints [] Hfail).
  reflexivity.
Qed.

Lemma convert_over_cap prompt env input_text before endpoint after :
  truthy (strip input_text) = true ->
  key_configured env = true ->
  endpoints = before ++ endpoint :: after ->
  (forall e, In e before -> passes env e = false) ->
  passes env endpoint = true ->
  max_records < line_count input_text ->
  convert prompt env input_text
  = (probes (before ++ [endpoint])
       ++ [SidebarSuccess (lit "API端点可用: " ++ endpoint);
           StWarning (too_many_message (line_count input_text))],
     Stop).
Proof.
  intros Htext Hkey Hsplit Hfail Hpass Hcap. unfold convert.
  rewrite Htext, Hkey. cbn [negb].
  rewrite Hsplit, (test_endpoints_first env before endpoint after [] Hfail Hpass).
  apply Nat.ltb_lt in Hcap.
  cbn [bind]. rewrite Hcap.
  cbn [bind emit stop]. rewrite <- app_assoc. reflexivity.
Qed.

Lemma trace_bind {A B} (m : M A) (f : A -> M B) :
  trace (bind m f)
  = trace m ++ match outcome m with
               | Continue a => trace (f a)
               | _ => []
               end.
Proof.
  destruct m as [t [a| |]]; unfold trace, outcome; simpl;
    rewrite ?app_nil_r; try reflexivity.
  destruct (f a); reflexivity.
Qed.

Lemma outcome_bind {A B} (m : M A) (f : A -> M B) :
  outcome (bind m f)
  = match outcome m with
    | Continue a => outcome (f a)
    | Stop => Stop
    | Fault => Fault
    end.
Proof.
  destruct m as [t [a| |]]; unfold outcome; simpl; try reflexivity.
  destruct (f a); reflexivity.
Qed.

(** What follows the extraction call issues no further call. *)
Lemma after_call_requests env (response : reply) :
  requests
    (trace
       match response with
       | Raises e => report_call_failure e ;; stop
       | Response choices =>
           result <- read_response env choices ;;
           show_result (fst result) (snd result) ;;
           ret result
       end) = [].
Proof.
  destruct response as [e|choices]; [reflexivity|].
  rewrite trace_bind, requests_app, read_response_requests.
  destruct (outcome (read_response env choices)) as [result| |];
    try reflexivity.
  rewrite trace_bind, requests_app, show_result_requests.
  rewrite show_result_continues. reflexivity.
Qed.

Lemma convert_within_cap prompt env input_text before endpoint after :
  truthy (strip input_text) = true ->
  key_configured env = true ->
  endpoints = before ++ endpoint :: after ->
  (forall e, In e before -> passes env e = false) ->
  passes env endpoint = true ->
  line_count input_text <= max_records ->
  exists rest,
    trace (convert prompt env input_text)
    = probes (before ++ [endpoint])
        ++ [SidebarSuccess (lit "API端点可用: " ++ endpoint)]
        ++ Create endpoint (extraction_request prompt input_text) :: rest
    /\ requests rest = [].
Proof.
  intros Htext Hkey Hsplit Hfail Hpass Hcap. unfold convert.
  rewrite Htext, Hkey. cbn [negb].
  rewrite Hsplit, (test_endpoints_first env before endpoint after [] Hfail Hpass).
  assert (Hcap' : (max_records <? line_count input_text) = false)
    by (apply Nat.ltb_ge; exact Hcap).
  rewrite trace_bind. cbn [outcome trace fst snd]. rewrite Hcap'.
  unfold call. rewrite !trace_bind. cbn [emit ret outcome trace fst snd app].
  eexists. rewrite <- app_assoc. split; [reflexivity|].
  apply after_call_requests.
Qed.

Lemma first_passing env (tried : list pystr) :
  (forall e, In e tried -> passes env e = false)
  \/ exists before endpoint after,
       tried = before ++ endpoint :: after
       /\ (forall e, In e before -> passes env e = false)
       /\ passes env endpoint = true.
Proof.
  induction tried as [|x l IH].
  - left. intros e [].
  - destruct (passes env x) eqn:Hx.
    + right. exists [], x, l. split; [reflexivity|].
      split; [intros e []|exact Hx].
    + destruct IH as [Hall|(before & endpoint & after & -> & Hfail & Hpass)].
      * left. intros e [<-|He]; [exact Hx|apply Hall; exact He].
      * right. exists (x :: before), endpoint, after.
        split; [reflexivity|]. split; [|exact Hpass].
        intros e [<-|He]; [exact Hx|apply Hfail; exact He].
Qed.

Lemma over_cap_nonblank input_text :
  max_records < line_count input_text -> truthy (strip input_text) = true.
Proof.
  unfold line_count. destruct (strip input_text); [|reflexivity].
  simpl. unfold max_records. lia.
Qed.

Lemma test_is_not_extraction prompt input_text :
  test_request <> extraction_request prompt input_text.
Proof. unfold test_request, extraction_request. discriminate. Qed.

Lemma over_cap_stops prompt env input_text :
  max_records < line_count input_text ->
  outcome (convert prompt env input_text) = Stop.
Proof.
  intros Hcap. pose proof (over_cap_nonblank _ Hcap) as Htext.
  destruct (key_configured env) eqn:Hkey.
  - destruct (first_passing env endpoints)
      as [Hall|(before & endpoint & after & Hsplit & Hfail & Hpass)].
    + rewrite (convert_all_fail prompt env input_text Htext Hkey Hall).
      reflexivity.
    + rewrite (convert_over_cap prompt env input_text before endpoint after
                 Htext Hkey Hsplit Hfail Hpass Hcap).
      reflexivity.
  - unfold convert. rewrite Htext, Hkey. reflexivity.
Qed.

Lemma over_cap_only_tests prompt env input_text base_url req :
  max_records < line_count input_text ->
  In (base_url, req) (requests (trace (convert prompt env input_text))) ->
  req = test_request.
Proof.
  intros Hcap. pose proof (over_cap_nonblank _ Hcap) as Htext.
  assert (Hprobes : forall tried,
             In (base_url, req) (map (fun e => (e, test_request)) tried) ->
             req = test_request).
  { intros tried Hin. apply in_map_iff in Hin.
    destruct Hin as (e & Heq & _). injection Heq as _ <-. reflexivity. }
  destruct (key_configured env) eqn:Hkey.
  - destruct (first_passing env endpoints)
      as [Hall|(before & endpoint & after & Hsplit & Hfail & Hpass)].
    + rewrite (convert_all_fail prompt env input_text Htext Hkey Hall).
      rewrite report_key_failure_trace.
      unfold trace; cbn [fst].
      rewrite requests_app, requests_probes. cbn [requests].
      rewrite app_nil_r. apply Hprobes.
    + rewrite (convert_over_cap prompt env input_text before endpoint after
                 Htext Hkey Hsplit Hfail Hpass Hcap).
      unfold trace; cbn [fst].
      rewrite requests_app, requests_probes. cbn [requests].
      rewrite app_nil_r. apply Hprobes.
  - unfold convert. rewrite Htext, Hkey. intros [].
Qed.

(** X24: the three endpoints are distinct and are tested in the order of
    the list, each once, up to the first one whose test call returns a
    choice; the extraction call, when the input passes the line check, goes
    to that endpoint and is the only other call.  When no endpoint passes,
    each has been tested once, the run stops, and the reasons kept are those
    of the endpoints whose test call raised, in the order of the list (an
    endpoint whose test returned no choice has none). *)
Theorem endpoints_tested_in_order_until_first_success prompt env input_text :
  truthy (strip input_text) = true ->
  key_configured env = true ->
  NoDup endpoints
  /\ ((forall e, In e endpoints -> passes env e = false) ->
      convert prompt env input_text
      = (probes endpoints
           ++ [StError (lit "API密钥验证失败: 所有API端点测试失败");
               StInfo (lit "请检查：");
               StInfo (lit "1. API密钥是否正确且未过期");
               StInfo (lit "2. 密钥是否完整复制（以'sk-'开头）");
               StInfo (lit "3. 访问 https://platform.deepseek.com 检查账户状态");
               Expander (lit "详细错误信息") (flat_map (reason env) endpoints)],
         Stop)
      /\ requests (trace (convert prompt env input_text))
         = map (fun e => (e, test_request)) endpoints)
  /\ (forall before endpoint after,
        endpoints = before ++ endpoint :: after ->
        (forall e, In e before -> passes env e = false) ->
        passes env endpoint = true ->
        requests (trace (convert prompt env input_text))
        = map (fun e => (e, test_request)) (before ++ [endpoint])
          ++ (if max_records <? line_count input_text then []
              else [(endpoint, extraction_request prompt input_text)])).
Proof.
  intros Htext Hkey. split; [|split].
  - unfold endpoints. repeat constructor; simpl; intuition discriminate.
  - intros Hall.
    rewrite (convert_all_fail prompt env input_text Htext Hkey Hall).
    rewrite report_key_failure_trace.
    split; [reflexivity|].
    unfold trace; cbn [fst].
    rewrite requests_app, requests_probes. cbn [requests].
    rewrite app_nil_r. reflexivity.
  - intros before endpoint after Hsplit Hfail Hpass.
    destruct (max_records <? line_count input_text) eqn:Hcap.
    + apply Nat.ltb_lt in Hcap.
      rewrite (convert_over_cap prompt env input_text before endpoint after
                 Htext Hkey Hsplit Hfail Hpass Hcap).
      unfold trace; cbn [fst].
      rewrite requests_app, requests_probes. reflexivity.
    + apply Nat.ltb_ge in Hcap.
      destruct (convert_within_cap prompt env input_text before endpoint after
                  Htext Hkey Hsplit Hfail Hpass Hcap) as (rest & -> & Hrest).
      rewrite !requests_app, requests_probes. cbn [requests app].
      rewrite Hrest. reflexivity.
Qed.

Lemma endpoints_tested_in_order_until_first_success_witness :
  requests
    (trace (convert [] (Scenario.world Scenario.only_v1 (lit "[]") (Evaluates (PyList [])))
                    Scenario.one_record))
  = [(lit "https://api.deepseek.com", test_request);
     (lit "https://api.deepseek.com/v1", test_request);
     (lit "https://api.deepseek.com/v1",
      extraction_request [] Scenario.one_record)].
Proof.
  destruct (@endpoints_tested_in_order_until_first_success []
              (Scenario.world Scenario.only_v1 (lit "[]") (Evaluates (PyList [])))
              Scenario.one_record eq_refl eq_refl)
    as (_ & _ & Hfirst).
  rewrite (Hfirst [lit "https://api.deepseek.com"]
                  (lit "https://api.deepseek.com/v1")
                  [lit "https://api.deepseek.cc"]).
  - vm_compute. reflexivity.
  - reflexivity.
  - intros e [<-|[]]. vm_compute. reflexivity.
  - vm_compute. reflexivity.
Defined.

(** C7: with a key and a record to convert, an extractor whose test call
    returns a reply without choices on each endpoint makes the run fail
    after three test calls, and the list of failure reasons shown is empty:
    the loop records a reason only when the test call raises (line 163) and
    has no branch for a reply without choices. *)
Theorem silent_endpoints_leave_no_reason :
  convert [] Edge.silent Scenario.one_record
  = ([Create (lit "https://api.deepseek.com") test_request;
      Create (lit "https://api.deepseek.com/v1") test_request;
      Create (lit "https://api.deepseek.cc") test_request;
      StError (lit "API密钥验证失败: 所有API端点测试失败");
      StInfo (lit "请检查：");
      StInfo (lit "1. API密钥是否正确且未过期");
      StInfo (lit "2. 密钥是否完整复制（以'sk-'开头）");
      StInfo (lit "3. 访问 https://platform.deepseek.com 检查账户状态");
      Expander (lit "详细错误信息") []],
     Stop)
  /\ flat_map (reason Edge.silent) endpoints = [].
Proof. split; vm_compute; reflexivity. Qed.

(** C1, as the code has it: an input of more than 50 lines never reaches
    the extraction call and the run always stops; the only calls made are
    test calls.  When the key is set and an endpoint passes the test, the
    test calls up to that endpoint come first and the run then stops on the
    warning that states the limit (50) and the line count. *)
Theorem over_cap_stops_before_extraction prompt env input_text :
  max_records < line_count input_text ->
  outcome (convert prompt env input_text) = Stop
  /\ (forall base_url req,
        In (base_url, req) (requests (trace (convert prompt env input_text))) ->
        req = test_request /\ req <> extraction_request prompt input_text)
  /\ too_many_message (line_count input_text)
     = lit "一次最多处理50条记录（当前" ++ of_nat (line_count input_text)
       ++ lit "条），请分批处理"
  /\ (key_configured env = true ->
      forall before endpoint after,
        endpoints = before ++ endpoint :: after ->
        (forall e, In e before -> passes env e = false) ->
        passes env endpoint = true ->
        trace (convert prompt env input_text)
        = probes (before ++ [endpoint])
            ++ [SidebarSuccess (lit "API端点可用: " ++ endpoint);
                StWarning (too_many_message (line_count input_text))]).
Proof.
  intros Hcap. split; [|split; [|split]].
  - apply over_cap_stops; exact Hcap.
  - intros base_url req Hin.
    pose proof (over_cap_only_tests prompt env input_text base_url req Hcap Hin)
      as ->.
    split; [reflexivity|apply test_is_not_extraction].
  - unfold too_many_message.
    replace (lit "一次最多处理" ++ of_nat max_records ++ lit "条记录（当前"
             ++ of_nat (line_count input_text) ++ lit "条），请分批处理")
      with ((lit "一次最多处理" ++ of_nat max_records ++ lit "条记录（当前")
            ++ of_nat (line_count input_text) ++ lit "条），请分批处理")
      by (rewrite <- !app_assoc; reflexivity).
    replace (lit "一次最多处理" ++ of_nat max_records ++ lit "条记录（当前")
      with (lit "一次最多处理50条记录（当前") by (vm_compute; reflexivity).
    reflexivity.
  - intros Hkey before endpoint after Hsplit Hfail Hpass.
    rewrite (convert_over_cap prompt env input_text before endpoint after
               (over_cap_nonblank _ Hcap) Hkey Hsplit Hfail Hpass Hcap).
    reflexivity.
Qed.

Lemma lines51_over_cap : max_records < line_count Scenario.lines51.
Proof. apply Nat.ltb_lt. vm_compute. reflexivity. Defined.

Lemma over_cap_stops_before_extraction_witness :
  max_records < line_count Scenario.lines51
  /\ outcome (convert [] (Scenario.world Scenario.all_up (lit "[]") (Evaluates (PyList [])))
                      Scenario.lines51) = Stop.
Proof.
  split; [exact lines51_over_cap|].
  exact (proj1 (@over_cap_stops_before_extraction []
                  (Scenario.world Scenario.all_up (lit "[]") (Evaluates (PyList [])))
                  Scenario.lines51 lines51_over_cap)).
Defined.

(** C1 as stated fails: on 51 lines, with every endpoint answering, a test
    call is made before the rejection; and with every endpoint refusing the
    connection the three test calls are made and the run ends on the key
    verification error, the line count is never reported. *)
Lemma over_cap_rejected_after_test_call :
  max_records < line_count Scenario.lines51
  /\ convert [] (Scenario.world Scenario.all_up (lit "[]") (Evaluates (PyList [])))
             Scenario.lines51
     = ([Create (lit "https://api.deepseek.com") test_request;
         SidebarSuccess (lit "API端点可用: https://api.deepseek.com");
         StWarning (lit "一次最多处理50条记录（当前51条），请分批处理")],
        Stop)
  /\ convert [] (Scenario.world Scenario.all_down (lit "[]") (Evaluates (PyList [])))
             Scenario.lines51
     = ([Create (lit "https://api.deepseek.com") test_request;
         Create (lit "https://api.deepseek.com/v1") test_request;
         Create (lit "https://api.deepseek.cc") test_request;
         StError (lit "API密钥验证失败: 所有API端点测试失败");
         StInfo (lit "请检查：");
         StInfo (lit "1. API密钥是否正确且未过期");
         StInfo (lit "2. 密钥是否完整复制（以'sk-'开头）");
         StInfo (lit "3. 访问 https://platform.deepseek.com 检查账户状态");
         Expander (lit "详细错误信息")
           [lit "https://api.deepseek.com: Connection error.";
            lit "https://api.deepseek.com/v1: Connection error.";
            lit "https://api.deepseek.cc: Connection error."]],
        Stop).
Proof.
  split; [exact lines51_over_cap|].
  split; vm_compute; reflexivity.
Qed.

(** C10: the line count is one more than the number of newlines left after
    stripping, so every segment counts, blank or not.  Thirty records with a
    blank line between two of them make 59 segments, of which 30 are not
    blank; the run on them stops without an extraction call, and once an
    endpoint has passed the test it stops on the warning for 59 lines. *)
Theorem blank_lines_count_toward_cap prompt env :
  (forall input_text,
     line_count input_text = S (count_occ N.eq_dec (strip input_text) newline))
  /\ line_count Scenario.thirty_records = 59
  /\ length (filter truthy (split_lines (strip Scenario.thirty_records))) = 30
  /\ outcome (convert prompt env Scenario.thirty_records) = Stop
  /\ (forall base_url,
        ~ In (base_url, extraction_request prompt Scenario.thirty_records)
             (requests (trace (convert prompt env Scenario.thirty_records))))
  /\ (key_configured env = true ->
      forall before endpoint after,
        endpoints = before ++ endpoint :: after ->
        (forall e, In e before -> passes env e = false) ->
        passes env endpoint = true ->
        trace (convert prompt env Scenario.thirty_records)
        = probes (before ++ [endpoint])
            ++ [SidebarSuccess (lit "API端点可用: " ++ endpoint);
                StWarning (lit "一次最多处理50条记录（当前59条），请分批处理")]).
Proof.
  assert (Hcount : line_count Scenario.thirty_records = 59)
    by (vm_compute; reflexivity).
  assert (Hcap : max_records < line_count Scenario.thirty_records)
    by (rewrite Hcount; unfold max_records; lia).
  split; [intros input_text; apply split_lines_length|].
  split; [exact Hcount|].
  split; [vm_compute; reflexivity|].
  split; [apply over_cap_stops; exact Hcap|].
  split.
  - intros base_url Hin.
    apply (over_cap_only_tests prompt env _ _ _ Hcap) in Hin.
    symmetry in Hin. revert Hin. apply test_is_not_extraction.
  - intros Hkey before endpoint after Hsplit Hfail Hpass.
    rewrite (convert_over_cap prompt env _ before endpoint after
               (over_cap_nonblank _ Hcap) Hkey Hsplit Hfail Hpass Hcap).
    rewrite Hcount.
    replace (too_many_message 59)
      with (lit "一次最多处理50条记录（当前59条），请分批处理")
      by (vm_compute; reflexivity).
    reflexivity.
Qed.

Lemma blank_lines_count_toward_cap_witness :
  trace (convert [] (Scenario.world Scenario.all_up (lit "[]") (Evaluates (PyList [])))
                 Scenario.thirty_records)
  = [Create (lit "https://api.deepseek.com") test_request;
     SidebarSuccess (lit "API端点可用: https://api.deepseek.com");
     StWarning (lit "一次最多处理50条记录（当前59条），请分批处理")].
Proof.
  destruct (@blank_lines_count_toward_cap []
              (Scenario.world Scenario.all_up (lit "[]") (Evaluates (PyList []))))
    as (_ & _ & _ & _ & _ & Hrun).
  rewrite (Hrun eq_refl [] (lit "https://api.deepseek.com")
                [lit "https://api.deepseek.com/v1"; lit "https://api.deepseek.cc"]).
  - vm_compute. reflexivity.
  - reflexivity.
  - intros e [].
  - vm_compute. reflexivity.
Defined.

(** A whole run: the second endpoint answers, the reply holds two mappings
    around a stray string.  Two rows are stored; the error kept for the
    string is returned but not shown, since [data] is not empty. *)
Example convert_run :
  convert [] (Scenario.world Scenario.only_v1 (lit "reply") (Evaluates Scenario.mixed))
          Scenario.one_record
  = ([Create (lit "https://api.deepseek.com") test_request;
      Create (lit "https://api.deepseek.com/v1") test_request;
      SidebarSuccess (lit "API端点可用: https://api.deepseek.com/v1");
      Create (lit "https://api.deepseek.com/v1")
             (extraction_request [] Scenario.one_record);
      SetDf [[PyStr (lit "王师傅"); PyStr []; PyStr []; PyStr []; PyStr [];
              PyStr []; PyStr []; PyStr []; PyStr (lit "已支付"); PyStr []];
             [PyStr (lit "李雪霜"); PyStr []; PyStr []; PyStr []; PyStr [];
              PyStr []; PyStr []; PyStr []; PyStr []; PyStr []]];
      StSuccess (lit "成功解析 2 条记录！")],
     Continue
       ([[PyStr (lit "王师傅"); PyStr []; PyStr []; PyStr []; PyStr [];
          PyStr []; PyStr []; PyStr []; PyStr (lit "已支付"); PyStr []];
         [PyStr (lit "李雪霜"); PyStr []; PyStr []; PyStr []; PyStr [];
          PyStr []; PyStr []; PyStr []; PyStr []; PyStr []]],
        [lit "第 2 条记录格式错误: x"])).
Proof. vm_compute. reflexivity. Qed.

(** ** Statistics *)

(** On a table without rows only the total is shown. *)
Example statistics_no_rows :
  statistics Scenario.no_rows = ([Metric (lit "总记录数") 0], Continue tt).
Proof. vm_compute. reflexivity. Qed.

Lemma counts_get_count_up value counts label :
  counts_get (count_up value counts) label 0
  = counts_get counts label 0 + (if PyStr.eqb value label then 1 else 0).
Proof.
  induction counts as [|[v n] rest IH].
  - simpl. destruct (PyStr.eqb value label); reflexivity.
  - cbn [count_up]. destruct (PyStr.eqb v value) eqn:Hv.
    + apply eqb_eq in Hv; subst v. cbn [counts_get].
      destruct (PyStr.eqb value label); lia.
    + cbn [counts_get]. destruct (PyStr.eqb v label) eqn:Hl.
      * apply eqb_eq in Hl; subst v.
        apply eqb_neq in Hv.
        destruct (PyStr.eqb value label) eqn:E; [|lia].
        apply eqb_eq in E; congruence.
      * exact IH.
Qed.

Lemma value_counts_from_get series counts label :
  counts_get (value_counts_from series counts) label 0
  = counts_get counts label 0 + count_occ cell_eq_dec series (Str label).
Proof.
  revert counts; induction series as [|c rest IH]; intros counts.
  - simpl. lia.
  - destruct c as [|v]; cbn [value_counts_from count_occ].
    + destruct (cell_eq_dec NaN (Str label)) as [Habs|_]; [discriminate Habs|].
      apply IH.
    + rewrite IH, counts_get_count_up.
      destruct (cell_eq_dec (Str v) (Str label)) as [Heq|Hne].
      * injection Heq as ->. rewrite eqb_refl. lia.
      * destruct (PyStr.eqb v label) eqn:E; [|lia].
        apply eqb_eq in E; subst v. congruence.
Qed.

Lemma value_counts_get series label :
  counts_get (value_counts series) label 0
  = count_occ cell_eq_dec series (Str label).
Proof. unfold value_counts. rewrite value_counts_from_get. reflexivity. Qed.

Lemma getitem_payment_status df :
  df_columns df = columns ->
  getitem df payment_status = Some (map status_of (df_rows df)).
Proof.
  intros Hcols. unfold getitem. rewrite Hcols.
  replace (index_of payment_status columns) with (Some 8)
    by (vm_compute; reflexivity).
  reflexivity.
Qed.

(** C6: on a table with the fixed columns, the count read under the unpaid
    marker is the number of rows whose payment status is exactly that
    marker, likewise for the paid marker, and the total is the number of
    rows; a row with any other status, the empty string included, changes
    neither count.  The three figures are what the metrics show (the two
    payment metrics are shown when at least one status is present).  The
    table with statuses unpaid, paid, unpaid and empty gives 2, 1 and 4. *)
Theorem payment_counts_are_exact_matches df :
  df_columns df = columns ->
  let series := map status_of (df_rows df) in
  let payment_counts := value_counts series in
  counts_get payment_counts unpaid_marker 0
    = count_occ cell_eq_dec series (Str unpaid_marker)
  /\ counts_get payment_counts paid_marker 0
    = count_occ cell_eq_dec series (Str paid_marker)
  /\ len df = length series
  /\ (forall row,
        status_of row <> Str unpaid_marker ->
        status_of row <> Str paid_marker ->
        let more := value_counts (status_of row :: series) in
        counts_get more unpaid_marker 0 = counts_get payment_counts unpaid_marker 0
        /\ counts_get more paid_marker 0 = counts_get payment_counts paid_marker 0)
  /\ statistics df
     = (Metric (lit "总记录数") (len df)
        :: (if empty payment_counts then []
            else [Metric (lit "未支付数量")
                    (count_occ cell_eq_dec series (Str unpaid_marker));
                  Metric (lit "已支付数量")
                    (count_occ cell_eq_dec series (Str paid_marker))]),
        Continue tt)
  /\ statistics Scenario.four_rows
     = ([Metric (lit "总记录数") 4; Metric (lit "未支付数量") 2;
         Metric (lit "已支付数量") 1],
        Continue tt).
Proof.
  intros Hcols series payment_counts.
  split; [apply value_counts_get|].
  split; [apply value_counts_get|].
  split; [unfold len, series; rewrite length_map; reflexivity|].
  split.
  - intros row Hu Hp more. unfold more, payment_counts.
    rewrite !value_counts_get. cbn [count_occ].
    destruct (cell_eq_dec (status_of row) (Str unpaid_marker)); [contradiction|].
    destruct (cell_eq_dec (status_of row) (Str paid_marker)); [contradiction|].
    split; reflexivity.
  - split; [|vm_compute; reflexivity].
    unfold statistics. rewrite (getitem_payment_status df Hcols).
    fold series. fold payment_counts.
    rewrite <- !value_counts_get. fold payment_counts.
    destruct payment_counts; reflexivity.
Qed.

Lemma payment_counts_are_exact_matches_witness :
  counts_get (value_counts (map status_of (df_rows Scenario.four_rows)))
             unpaid_marker 0 = 2.
Proof.
  rewrite (proj1 (@payment_counts_are_exact_matches Scenario.four_rows eq_refl)).
  vm_compute. reflexivity.
Defined.

(** ** The formatted export *)

Lemma set_columns_are_widths df idx cols c :
  In c (set_columns df idx cols) ->
  exists first_col last_col width, c = SetColumn first_col last_col width.
Proof.
  revert idx; induction cols as [|col rest IH]; intros idx Hin; [destruct Hin|].
  destruct Hin as [<-|Hin]; [eauto|exact (IH _ Hin)].
Qed.

Lemma set_columns_no_highlight df idx cols :
  filter is_highlight (set_columns df idx cols) = [].
Proof.
  revert idx; induction cols as [|col rest IH]; intros idx; [reflexivity|].
  simpl. apply IH.
Qed.

(** C2: on a table with the fixed columns, the two highlight rules of the
    export are set on rows 1 to [len df] of column 7 only.  Column 7 of the
    schema is the cost field; the payment status is column 8, and no
    formatting call of the export covers any cell of it. *)
Theorem highlight_rules_sit_on_cost_column df :
  df_columns df = columns ->
  filter is_highlight (formatted_export df)
  = [ConditionalFormat 1 7 (Z.of_nat (len df)) 7
       (highlight (lit "未支付") (lit "#FFC7CE"));
     ConditionalFormat 1 7 (Z.of_nat (len df)) 7
       (highlight (lit "已支付") (lit "#C6EFCE"))]
  /\ nth_error (df_columns df) 7 = Some (lit "费用")
  /\ index_of (lit "支付状态") (df_columns df) = Some 8
  /\ (forall c row, In c (formatted_export df) -> ~ covers c row 8).
Proof.
  intros Hcols. split; [|split; [|split]].
  - unfold formatted_export. rewrite !filter_app, set_columns_no_highlight.
    reflexivity.
  - rewrite Hcols. vm_compute. reflexivity.
  - rewrite Hcols. vm_compute. reflexivity.
  - intros c row Hin. unfold formatted_export in Hin.
    apply in_app_or in Hin. destruct Hin as [[<-|[]]|Hin]; [intros []|].
    apply in_app_or in Hin. destruct Hin as [Hin|Hin].
    + apply set_columns_are_widths in Hin.
      destruct Hin as (a & b & w & ->). intros [].
    + destruct Hin as [<-|[<-|[<-|[<-|[]]]]]; simpl; lia.
Qed.

Lemma highlight_rules_sit_on_cost_column_witness :
  filter is_highlight (formatted_export Scenario.four_rows)
  = [ConditionalFormat 1 7 4 7 (highlight (lit "未支付") (lit "#FFC7CE"));
     ConditionalFormat 1 7 4 7 (highlight (lit "已支付") (lit "#C6EFCE"))].
Proof.
  exact (proj1 (@highlight_rules_sit_on_cost_column Scenario.four_rows eq_refl)).
Defined.

(** * Further properties *)

(** ** The handler, case by case *)

Lemma run_pair {A} (m : M A) : m = (trace m, outcome m).
Proof. destruct m; reflexivity. Qed.

Lemma convert_extraction prompt env input_text before endpoint after :
  truthy (strip input_text) = true ->
  key_configured env = true ->
  endpoints = before ++ endpoint :: after ->
  (forall e, In e before -> passes env e = false) ->
  passes env endpoint = true ->
  line_count input_text <= max_records ->
  convert prompt env input_text
  = (probes (before ++ [endpoint])
       ++ [SidebarSuccess (lit "API端点可用: " ++ endpoint);
           Create endpoint (extraction_request prompt input_text)]
       ++ trace (after_call env
                   (create env endpoint (extraction_request prompt input_text))),
     outcome (after_call env
                (create env endpoint (extraction_request prompt input_text)))).
Proof.
  intros Htext Hkey Hsplit Hfail Hpass Hcap.
  rewrite (run_pair (convert prompt env input_text)).
  unfold convert. rewrite Htext, Hkey. cbn [negb].
  rewrite Hsplit, (test_endpoints_first env before endpoint after [] Hfail Hpass).
  assert (Hcap' : (max_records <? line_count input_text) = false)
    by (apply Nat.ltb_ge; exact Hcap).
  rewrite trace_bind, outcome_bind. cbn [outcome trace fst snd]. rewrite Hcap'.
  unfold call. rewrite !trace_bind, !outcome_bind.
  cbn [emit ret outcome trace fst snd app].
  rewrite <- app_assoc. reflexivity.
Qed.

Lemma convert_shape prompt env input_text : run_shape prompt env input_text.
Proof.
  destruct (truthy (strip input_text)) eqn:Htext.
  - destruct (key_configured env) eqn:Hkey.
    + destruct (first_passing env endpoints)
        as [Hall|(before & endpoint & after & Hsplit & Hfail & Hpass)].
      * apply NoEndpoint; auto using convert_all_fail.
      * destruct (Nat.le_gt_cases (line_count input_text) max_records)
          as [Hle|Hgt].
        -- apply Extraction with (before := before) (endpoint := endpoint)
                                 (after := after); auto.
           eapply convert_extraction; eassumption.
        -- apply TooManyLines with (before := before) (endpoint := endpoint)
                                   (after := after); auto.
           eapply convert_over_cap; eassumption.
    + apply MissingKey; auto.
      unfold convert. rewrite Htext, Hkey. reflexivity.
  - apply BlankInput; auto.
    unfold convert. rewrite Htext. reflexivity.
Qed.

Lemma show_errors_eq errors :
  show_errors errors = (map StError errors, Continue tt).
Proof.
  induction errors as [|e rest IH]; [reflexivity|].
  cbn [show_errors]. rewrite IH. reflexivity.
Qed.

Lemma show_result_eq data errors :
  show_result data errors
  = (match data with
     | _ :: _ =>
         [SetDf data;
          StSuccess (lit "成功解析 " ++ of_nat (length data) ++ lit " 条记录！")]
     | [] =>
         StError no_records_message
         :: match errors with
            | [] => []
            | _ :: _ =>
                StWarning (lit "共发现 " ++ of_nat (length errors)
                           ++ lit " 条解析错误")
                :: map StError errors
            end
     end,
     Continue tt).
Proof.
  destruct data as [|row data]; [|reflexivity].
  destruct errors as [|e errors]; [reflexivity|].
  unfold show_result. rewrite show_errors_eq. reflexivity.
Qed.

(** What the handler does once the extraction call has returned. *)
Lemma after_call_cases env response :
  (outcome (after_call env response) = Stop
   /\ exists msg infos,
        trace (after_call env response) = StError msg :: map StInfo infos)
  \/ after_call env response = ([], Fault)
  \/ exists data errors,
       after_call env response
       = (trace (show_result data errors), Continue (data, errors)).
Proof.
  destruct response as [e|choices].
  - left. split; [reflexivity|].
    exists (lit "API调用失败: " ++ e),
      [lit "建议尝试："; lit "1. 检查DeepSeek平台状态"; lit "2. 稍后重试";
       lit "3. 联系DeepSeek支持"].
    reflexivity.
  - unfold after_call, read_response.
    destruct (usable_content choices) as [content|].
    + destruct (parse_reply env content) as [[data errors]|].
      * right; right. exists data, errors.
        pose proof (show_result_continues data errors) as Hcont.
        cbn [bind ret fst snd app].
        rewrite (run_pair (show_result data errors)), Hcont.
        cbn [bind ret trace fst]. rewrite app_nil_r. reflexivity.
      * right; left. reflexivity.
    + left. split; [reflexivity|]. exists no_records_message, []. reflexivity.
Qed.

Lemma probes_only_create tried e :
  In e (probes tried) -> exists base_url, e = Create base_url test_request.
Proof.
  unfold probes. intros Hin. apply in_map_iff in Hin.
  destruct Hin as (b & <- & _). exists b. reflexivity.
Qed.

Lemma endpoints_prefix_length before (endpoint : pystr) after :
  endpoints = before ++ endpoint :: after -> length (before ++ [endpoint]) <= 3.
Proof.
  intros Hsplit. assert (H : length endpoints = 3) by reflexivity.
  rewrite Hsplit in H. rewrite length_app in *. simpl in *. lia.
Qed.

Lemma shown_errors_app t1 t2 :
  shown_errors (t1 ++ t2) = shown_errors t1 ++ shown_errors t2.
Proof.
  induction t1 as [|e t1 IH]; [reflexivity|].
  destruct e; simpl; rewrite ?IH; reflexivity.
Qed.

Lemma shown_warnings_app t1 t2 :
  shown_warnings (t1 ++ t2) = shown_warnings t1 ++ shown_warnings t2.
Proof.
  induction t1 as [|e t1 IH]; [reflexivity|].
  destruct e; simpl; rewrite ?IH; reflexivity.
Qed.

Lemma stored_app t1 t2 : stored (t1 ++ t2) = stored t1 ++ stored t2.
Proof.
  induction t1 as [|e t1 IH]; [reflexivity|].
  destruct e; simpl; rewrite ?IH; reflexivity.
Qed.

Lemma probes_quiet tried :
  shown_errors (probes tried) = [] /\ shown_warnings (probes tried) = []
  /\ stored (probes tried) = [].
Proof. induction tried as [|e l IH]; simpl; auto. Qed.

Lemma infos_quiet infos :
  shown_errors (map StInfo infos) = [] /\ shown_warnings (map StInfo infos) = []
  /\ stored (map StInfo infos) = [] /\ requests (map StInfo infos) = [].
Proof. induction infos as [|e l IH]; simpl; auto. Qed.

Lemma shown_errors_map errors : shown_errors (map StError errors) = errors.
Proof. induction errors as [|e l IH]; simpl; congruence. Qed.

Lemma stored_map errors : stored (map StError errors) = [].
Proof. induction errors as [|e l IH]; simpl; congruence. Qed.

Lemma shown_warnings_map errors : shown_warnings (map StError errors) = [].
Proof. induction errors as [|e l IH]; simpl; congruence. Qed.

Ltac quiet_prefix :=
  rewrite ?shown_errors_app, ?shown_warnings_app, ?stored_app, ?requests_app,
    ?requests_probes,
    ?(proj1 (probes_quiet _)), ?(proj1 (proj2 (probes_quiet _))),
    ?(proj2 (proj2 (probes_quiet _))).

(** X1: with a blank input, or with no key, the handler shows one message
    and stops without a single call to the extractor. *)
Theorem no_call_without_text_and_key prompt env input_text :
  truthy (strip input_text) = false \/ key_configured env = false ->
  requests (trace (convert prompt env input_text)) = []
  /\ outcome (convert prompt env input_text) = Stop
  /\ length (trace (convert prompt env input_text)) = 1.
Proof.
  intros Hmissing. unfold convert.
  destruct (truthy (strip input_text)); [|cbn; auto].
  destruct Hmissing as [Habs|Hkey]; [discriminate Habs|].
  rewrite Hkey. cbn; auto.
Qed.

Lemma no_call_without_text_and_key_witness :
  key_configured (Cases.keyed None) = false
  /\ requests (trace (convert [] (Cases.keyed None) Scenario.one_record)) = [].
Proof.
  split; [reflexivity|].
  exact (proj1 (@no_call_without_text_and_key [] (Cases.keyed None)
                  Scenario.one_record (or_intror eq_refl))).
Defined.

(** X2: a run makes at most four calls to the extractor, and at most three
    when the extraction request is not among them. *)
Theorem at_most_four_calls prompt env input_text :
  length (requests (trace (convert prompt env input_text))) <= 4
  /\ ((forall base_url,
         ~ In (base_url, extraction_request prompt input_text)
              (requests (trace (convert prompt env input_text)))) ->
      length (requests (trace (convert prompt env input_text))) <= 3).
Proof.
  destruct (convert_shape prompt env input_text)
    as [_ ->|_ _ ->|_ _ _ ->|before endpoint after _ _ Hsplit _ ->
        |before endpoint after _ _ Hsplit _ Hrun].
  - cbn. split; intros; lia.
  - cbn. split; intros; lia.
  - rewrite report_key_failure_trace. unfold trace; cbn [fst].
    quiet_prefix. cbn. split; intros; lia.
  - unfold trace; cbn [fst]. quiet_prefix. cbn [requests].
    rewrite app_nil_r, length_map.
    pose proof (endpoints_prefix_length _ _ _ Hsplit). split; intros; lia.
  - rewrite Hrun. unfold trace at 1 3 4; cbn [fst]. quiet_prefix.
    cbn [requests app].
    change (requests (trace (after_call env
              (create env endpoint (extraction_request prompt input_text)))))
      with (requests (trace
              match create env endpoint (extraction_request prompt input_text) with
              | Raises e => report_call_failure e ;; stop
              | Response choices =>
                  result <- read_response env choices ;;
                  show_result (fst result) (snd result) ;;
                  ret result
              end)).
    rewrite after_call_requests.
    pose proof (endpoints_prefix_length _ _ _ Hsplit) as Hlen.
    split.
    + rewrite length_app, length_map. simpl. lia.
    + intros Hnone. exfalso. apply (Hnone endpoint).
      apply in_or_app. right. left. reflexivity.
Qed.

Lemma shown_result_outcome (result : list (list pyvalue) * list pystr) :
  outcome (r <- ret result ;; show_result (fst r) (snd r) ;; ret r)
  = Continue result.
Proof.
  rewrite outcome_bind. cbn [ret outcome snd].
  rewrite outcome_bind, show_result_continues. reflexivity.
Qed.

Lemma at_most_four_calls_witness :
  length (requests (trace (convert [] (Cases.keyed (Some Scenario.key))
                                   Scenario.one_record))) <= 4.
Proof.
  exact (proj1 (@at_most_four_calls [] (Cases.keyed (Some Scenario.key))
                  Scenario.one_record)).
Defined.

Lemma trace_pair {A} (t : list event) (o : status A) : trace (t, o) = t.
Proof. reflexivity. Qed.

Lemma outcome_pair {A} (t : list event) (o : status A) : outcome (t, o) = o.
Proof. reflexivity. Qed.

Ltac stopped_run :=
  unfold trace, outcome; cbn [fst snd];
  rewrite ?report_key_failure_trace; unfold trace; cbn [fst];
  quiet_prefix; reflexivity.

(** X4: a table is stored in the session exactly when the run ends with at
    least one row, and it is the table of the rows returned; a run that
    stops, or ends without a row, stores nothing. *)
Theorem table_stored_iff_rows prompt env input_text :
  stored (trace (convert prompt env input_text))
  = match outcome (convert prompt env input_text) with
    | Continue (row :: data, _) => [row :: data]
    | _ => []
    end.
Proof.
  destruct (convert_shape prompt env input_text)
    as [_ ->|_ _ ->|_ _ _ ->|before endpoint after _ _ _ _ ->
        |before endpoint after _ _ _ _ ->]; try stopped_run.
  remember (after_call env
              (create env endpoint (extraction_request prompt input_text)))
    as run eqn:Hrun.
  rewrite trace_pair, outcome_pair. quiet_prefix.
  cbn [stored app].
  pose proof (after_call_cases env
                (create env endpoint (extraction_request prompt input_text)))
    as Hcases.
  rewrite <- Hrun in Hcases.
  destruct Hcases as [[Hstop (msg & infos & Ht)]|[->|(data & errors & ->)]].
  - rewrite Hstop, Ht. cbn [stored].
    apply (proj1 (proj2 (proj2 (infos_quiet infos)))).
  - reflexivity.
  - rewrite show_result_eq, !trace_pair, outcome_pair.
    destruct data as [|row data]; [|reflexivity].
    destruct errors as [|e errors]; [reflexivity|].
    cbn [stored]. apply stored_map.
Qed.

(** X5: when the run ends with at least one row, no error and no warning
    is shown at all: the errors kept for the malformed elements of the reply
    are returned but never displayed. *)
Theorem errors_not_shown_beside_rows prompt env input_text row data errors :
  outcome (convert prompt env input_text) = Continue (row :: data, errors) ->
  shown_errors (trace (convert prompt env input_text)) = []
  /\ shown_warnings (trace (convert prompt env input_text)) = [].
Proof.
  destruct (convert_shape prompt env input_text)
    as [_ ->|_ _ ->|_ _ _ ->|before endpoint after _ _ _ _ ->
        |before endpoint after _ _ _ _ ->]; try discriminate.
  remember (after_call env
              (create env endpoint (extraction_request prompt input_text)))
    as run eqn:Hrun.
  rewrite !trace_pair, outcome_pair. quiet_prefix.
  cbn [shown_errors shown_warnings app].
  pose proof (after_call_cases env
                (create env endpoint (extraction_request prompt input_text)))
    as Hcases.
  rewrite <- Hrun in Hcases.
  destruct Hcases as [[Hstop _]|[->|(data' & errors' & ->)]].
  - rewrite Hstop. discriminate.
  - discriminate.
  - rewrite outcome_pair. intros Heq. injection Heq as -> ->.
    rewrite show_result_eq. split; reflexivity.
Qed.

(** X6: when the run ends without a row, the message that nothing was
    parsed is shown, followed by every error of the reply in order; a
    warning with their number comes in between when there is at least
    one. *)
Theorem errors_all_shown_without_rows prompt env input_text errors :
  outcome (convert prompt env input_text) = Continue ([], errors) ->
  shown_errors (trace (convert prompt env input_text))
  = no_records_message :: errors
  /\ shown_warnings (trace (convert prompt env input_text))
     = match errors with
       | [] => []
       | _ :: _ =>
           [lit "共发现 " ++ of_nat (length errors) ++ lit " 条解析错误"]
       end.
Proof.
  destruct (convert_shape prompt env input_text)
    as [_ ->|_ _ ->|_ _ _ ->|before endpoint after _ _ _ _ ->
        |before endpoint after _ _ _ _ ->]; try discriminate.
  remember (after_call env
              (create env endpoint (extraction_request prompt input_text)))
    as run eqn:Hrun.
  rewrite !trace_pair, outcome_pair. quiet_prefix.
  cbn [shown_errors shown_warnings app].
  pose proof (after_call_cases env
                (create env endpoint (extraction_request prompt input_text)))
    as Hcases.
  rewrite <- Hrun in Hcases.
  destruct Hcases as [[Hstop _]|[->|(data' & errors' & ->)]].
  - rewrite Hstop. discriminate.
  - discriminate.
  - rewrite outcome_pair. intros Heq. injection Heq as -> ->.
    rewrite show_result_eq, !trace_pair. cbn [shown_errors shown_warnings].
    destruct errors as [|e errors].
    + split; reflexivity.
    + cbn [shown_errors shown_warnings].
      rewrite shown_errors_map, shown_warnings_map. split; reflexivity.
Qed.

Lemma errors_not_shown_beside_rows_witness :
  shown_errors
    (trace (convert [] (Scenario.world Scenario.only_v1 (lit "reply")
                          (Evaluates Scenario.mixed))
                    Scenario.one_record)) = [].
Proof.
  eapply (@errors_not_shown_beside_rows []
            (Scenario.world Scenario.only_v1 (lit "reply") (Evaluates Scenario.mixed))
            Scenario.one_record).
  vm_compute. reflexivity.
Defined.

Lemma errors_all_shown_without_rows_witness :
  shown_errors
    (trace (convert [] (Scenario.world Scenario.all_up (lit "['x', 'y']")
                          (Evaluates Scenario.two_malformed))
                    Scenario.one_record))
  = [lit "未能解析出任何记录，请检查输入格式！";
     lit "第 1 条记录格式错误: x"; lit "第 1 条记录格式错误: y"].
Proof.
  rewrite (proj1 (@errors_all_shown_without_rows []
                    (Scenario.world Scenario.all_up (lit "['x', 'y']")
                       (Evaluates Scenario.two_malformed))
                    Scenario.one_record
                    [lit "第 1 条记录格式错误: x"; lit "第 1 条记录格式错误: y"]
                    ltac:(vm_compute; reflexivity))).
  vm_compute. reflexivity.
Defined.

(** ** The validator, further *)

Lemma mappings_all_dicts parsed :
  forallb is_dict parsed = true -> length (mappings parsed) = length parsed.
Proof.
  induction parsed as [|v rest IH]; [reflexivity|].
  destruct v; simpl; try discriminate. intros H. rewrite (IH H). reflexivity.
Qed.

Lemma malformed_messages_all_dicts env parsed seen :
  forallb is_dict parsed = true -> malformed_messages env parsed seen = [].
Proof.
  revert seen; induction parsed as [|v rest IH]; intros seen; [reflexivity|].
  destruct v; simpl; try discriminate. intros H. apply IH; exact H.
Qed.

Lemma malformed_messages_app env l1 l2 seen :
  malformed_messages env (l1 ++ l2) seen
  = malformed_messages env l1 seen
    ++ malformed_messages env l2 (seen + length (mappings l1)).
Proof.
  revert seen; induction l1 as [|v l1 IH]; intros seen.
  - simpl. rewrite Nat.add_0_r. reflexivity.
  - destruct v; simpl; rewrite IH; try reflexivity.
    rewrite Nat.add_succ_r. reflexivity.
Qed.

Lemma parse_reply_list env content parsed :
  py_eval env content = Evaluates (PyList parsed) ->
  printable env parsed ->
  parse_reply env content
  = Some (map row_of (mappings parsed), malformed_messages env parsed 0).
Proof.
  intros Heval Hp. unfold parse_reply. rewrite Heval.
  rewrite (surjective_pairing (validate_records env parsed [] [])).
  rewrite (validate_records_errors _ _ Hp), (validate_records_data _ _ Hp).
  reflexivity.
Qed.

Lemma all_dicts_printable env parsed :
  forallb is_dict parsed = true -> printable env parsed.
Proof.
  intros Hall v Hin Hv. rewrite forallb_forall in Hall.
  rewrite (Hall v Hin) in Hv. discriminate Hv.
Qed.

(** X7: a reply that evaluates to an array of mappings only gives as many
    rows as the array has elements and no error. *)
Theorem array_of_mappings_gives_no_error env content parsed :
  py_eval env content = Evaluates (PyList parsed) ->
  forallb is_dict parsed = true ->
  exists data,
    parse_reply env content = Some (data, [])
    /\ length data = length parsed.
Proof.
  intros Heval Hall.
  exists (map row_of (mappings parsed)).
  rewrite (@parse_reply_list env content parsed Heval
             (@all_dicts_printable env parsed Hall)).
  rewrite (malformed_messages_all_dicts env parsed 0 Hall).
  split; [reflexivity|].
  rewrite length_map. apply mappings_all_dicts; exact Hall.
Qed.

Lemma array_of_mappings_gives_no_error_witness :
  exists data,
    parse_reply (Scenario.world Scenario.all_up (lit "reply")
                   (Evaluates (PyList Cases.two_mappings)))
                (lit "reply") = Some (data, [])
    /\ length data = 2.
Proof.
  exact (@array_of_mappings_gives_no_error
           (Scenario.world Scenario.all_up (lit "reply")
              (Evaluates (PyList Cases.two_mappings)))
           (lit "reply") Cases.two_mappings eq_refl eq_refl).
Defined.

Lemma rows_and_messages_length env parsed seen :
  length (mappings parsed) + length (malformed_messages env parsed seen)
  = length parsed.
Proof.
  revert seen; induction parsed as [|v rest IH]; intros seen; [reflexivity|].
  destruct v; simpl; rewrite <- (IH seen) at 1;
    rewrite ?(malformed_messages_length env rest (S seen)),
            ?(malformed_messages_length env rest seen); lia.
Qed.

Lemma processed_bound env parsed :
  length (processed env parsed)
  + match interruption env parsed with Some _ => 1 | None => 0 end
  <= length parsed.
Proof.
  induction parsed as [|v rest IH]; [simpl; lia|].
  destruct v; cbn [processed interruption length];
    try (destruct (py_str_raises env _); cbn [length]; lia);
    lia.
Qed.

(** X9: the rows and the errors together never outnumber the elements of
    the array, and they are exactly as many as the elements when every
    element that is not a mapping can be printed. *)
Theorem every_element_is_row_or_error env content parsed data errors :
  py_eval env content = Evaluates (PyList parsed) ->
  parse_reply env content = Some (data, errors) ->
  length data + length errors <= length parsed
  /\ (printable env parsed -> length data + length errors = length parsed).
Proof.
  intros Heval. unfold parse_reply. rewrite Heval, validate_records_spec.
  intros H. injection H as <- <-. cbn [app length]. split.
  - rewrite length_map, length_app.
    pose proof (rows_and_messages_length env (processed env parsed) 0).
    pose proof (processed_bound env parsed).
    destruct (interruption env parsed); cbn [length]; lia.
  - intros Hp. destruct (processed_printable Hp) as [-> ->].
    rewrite length_map, app_nil_r.
    apply rows_and_messages_length.
Qed.

Lemma every_element_is_row_or_error_witness :
  parse_reply (Scenario.world Scenario.all_up (lit "reply")
                 (Evaluates Scenario.mixed))
              (lit "reply")
  = Some (map row_of (mappings [PyDict
                                  [(PyStr (lit "师傅"), PyStr (lit "王师傅"));
                                   (PyStr (lit "支付状态"), PyStr (lit "已支付"))];
                                PyStr (lit "x");
                                PyDict
                                  [(PyStr (lit "师傅"), PyStr (lit "李雪霜"));
                                   (PyStr (lit "颜色"), PyStr (lit "红"))]]),
          [lit "第 2 条记录格式错误: x"])
  /\ 2 + 1 <= 3.
Proof.
  split; [vm_compute; reflexivity|].
  exact (proj1 (@every_element_is_row_or_error
                  (Scenario.world Scenario.all_up (lit "reply")
                     (Evaluates Scenario.mixed))
                  (lit "reply") _ _ _ eq_refl eq_refl)).
Defined.

Lemma dict_get_skips_other_key k v entries key default :
  k <> key ->
  dict_get ((PyStr k, v) :: entries) key default = dict_get entries key default.
Proof.
  intros Hne. cbn [dict_get].
  destruct (PyStr.eqb k key) eqn:E; [|reflexivity].
  apply eqb_eq in E. contradiction.
Qed.

(** X10: an entry of the mapping under a key that is not a column of the
    schema is dropped: the row is the same with and without it. *)
Theorem unknown_key_is_dropped k v entries :
  ~ In k columns ->
  row_of ((PyStr k, v) :: entries) = row_of entries.
Proof.
  intros Hout. rewrite !row_of_columns.
  apply map_ext_in. intros key Hin.
  apply dict_get_skips_other_key. intros ->. contradiction.
Qed.

Lemma unknown_key_is_dropped_witness :
  row_of [(PyStr (lit "颜色"), PyStr (lit "红"));
          (PyStr (lit "师傅"), PyStr (lit "李雪霜"))]
  = row_of [(PyStr (lit "师傅"), PyStr (lit "李雪霜"))].
Proof.
  apply (@unknown_key_is_dropped (lit "颜色") (PyStr (lit "红"))
           [(PyStr (lit "师傅"), PyStr (lit "李雪霜"))]).
  vm_compute. intuition discriminate.
Defined.

Lemma processed_app_printable env l1 l2 :
  printable env l1 -> processed env (l1 ++ l2) = l1 ++ processed env l2.
Proof.
  intros Hp. induction l1 as [|v rest IH]; [reflexivity|].
  assert (Hrest : printable env rest)
    by (intros w Hw; apply Hp; right; exact Hw).
  destruct v; cbn [app processed];
    try (rewrite (Hp _ (or_introl eq_refl) eq_refl));
    rewrite (IH Hrest); reflexivity.
Qed.

(** X11: when the elements up to a malformed one can be printed, the number
    written in its message is one more than the number of mappings that come
    before it in the array.  It is the element's position when everything
    before it is a mapping. *)
Theorem malformed_number_counts_mappings_before env content before bad after :
  py_eval env content = Evaluates (PyList (before ++ bad :: after)) ->
  is_dict bad = false ->
  printable env (before ++ [bad]) ->
  exists data errors,
    parse_reply env content = Some (data, errors)
    /\ nth_error errors (length (filter (fun v => negb (is_dict v)) before))
       = Some (record_error env (length (filter is_dict before) + 1) bad)
    /\ (forallb is_dict before = true ->
        nth_error errors 0
        = Some (record_error env (length before + 1) bad)).
Proof.
  intros Heval Hbad Hp.
  unfold parse_reply. rewrite Heval, validate_records_spec.
  do 2 eexists. split; [reflexivity|].
  replace (before ++ bad :: after) with ((before ++ [bad]) ++ after)
    by (rewrite <- app_assoc; reflexivity).
  rewrite (processed_app_printable after Hp).
  rewrite <- !app_assoc. cbn [app length].
  rewrite malformed_messages_app. cbn [Nat.add].
  assert (Hhead : forall tail,
             malformed_messages env (bad :: tail) (length (mappings before))
             = record_error env (length (mappings before) + 1) bad
               :: malformed_messages env tail (length (mappings before)))
    by (intros tail; destruct bad; try discriminate Hbad; reflexivity).
  rewrite Hhead, <- !app_assoc. cbn [app]. split.
  - rewrite <- (malformed_messages_length env before 0).
    rewrite nth_error_app2 by lia. rewrite Nat.sub_diag.
    rewrite mappings_length. reflexivity.
  - intros Hall.
    rewrite (malformed_messages_all_dicts env before 0 Hall).
    rewrite (mappings_all_dicts before Hall). reflexivity.
Qed.

Lemma malformed_number_counts_mappings_before_witness :
  exists data errors,
    parse_reply (Scenario.world Scenario.all_up (lit "['x', 'y']")
                   (Evaluates Scenario.two_malformed))
                (lit "['x', 'y']") = Some (data, errors)
    /\ nth_error errors 1 = Some (lit "第 1 条记录格式错误: y").
Proof.
  destruct (@malformed_number_counts_mappings_before
              (Scenario.world Scenario.all_up (lit "['x', 'y']")
                 (Evaluates Scenario.two_malformed))
              (lit "['x', 'y']") [PyStr (lit "x")] (PyStr (lit "y")) []
              eq_refl eq_refl
              ltac:(intros v [<-|[<-|[]]] _; reflexivity))
    as (data & errors & Hrun & Hnth & _).
  exists data, errors. split; [exact Hrun|].
  etransitivity; [exact Hnth|]. vm_compute. reflexivity.
Defined.

(** ** Statistics, further *)

Lemma count_occ_two (series : list cell) (a b : cell) :
  a <> b ->
  count_occ cell_eq_dec series a + count_occ cell_eq_dec series b
  <= length series
  /\ (count_occ cell_eq_dec series a + count_occ cell_eq_dec series b
      = length series
      <-> Forall (fun c => c = a \/ c = b) series).
Proof.
  intros Hab. induction series as [|c rest [IHle IHeq]].
  - simpl. split; [lia|]. split; [constructor|reflexivity].
  - cbn [count_occ length].
    destruct (cell_eq_dec c a) as [Ha|Ha]; destruct (cell_eq_dec c b) as [Hb|Hb].
    + congruence.
    + split; [lia|]. split.
      * intros H. constructor; [left; exact Ha|]. apply IHeq. lia.
      * intros H. inversion H; subst. apply IHeq in H3. lia.
    + split; [lia|]. split.
      * intros H. constructor; [right; exact Hb|]. apply IHeq. lia.
      * intros H. inversion H; subst. apply IHeq in H3. lia.
    + split; [lia|]. split.
      * intros H. lia.
      * intros H. inversion H; subst. destruct H2; contradiction.
Qed.

Lemma getitem_length df name series :
  getitem df name = Some series -> length series = len df.
Proof.
  unfold getitem. destruct (index_of name (df_columns df)); [|discriminate].
  intros H; injection H as <-. unfold column_at, len. apply length_map.
Qed.

(** X12: the unpaid and the paid count together never exceed the total,
    and they add up to it exactly when every row's status is one of the two
    markers. *)
Theorem unpaid_and_paid_within_total df series :
  getitem df payment_status = Some series ->
  counts_get (value_counts series) unpaid_marker 0
  + counts_get (value_counts series) paid_marker 0 <= len df
  /\ (counts_get (value_counts series) unpaid_marker 0
      + counts_get (value_counts series) paid_marker 0 = len df
      <-> Forall (fun c => c = Str unpaid_marker \/ c = Str paid_marker) series).
Proof.
  intros Hget. rewrite !value_counts_get, <- (getitem_length _ _ Hget).
  apply count_occ_two. vm_compute. discriminate.
Qed.

Lemma unpaid_and_paid_within_total_witness :
  counts_get (value_counts (map status_of (df_rows Scenario.four_rows)))
             unpaid_marker 0
  + counts_get (value_counts (map status_of (df_rows Scenario.four_rows)))
               paid_marker 0 <= 4.
Proof.
  exact (proj1 (@unpaid_and_paid_within_total Scenario.four_rows _
                  (getitem_payment_status Scenario.four_rows eq_refl))).
Defined.

Lemma index_of_absent name names :
  ~ In name names -> index_of name names = None.
Proof.
  induction names as [|n rest IH]; [reflexivity|].
  intros Hout. cbn [index_of].
  destruct (PyStr.eqb n name) eqn:E.
  - apply eqb_eq in E. exfalso. apply Hout. left. exact E.
  - rewrite IH; [reflexivity|]. intros Hin. apply Hout. right. exact Hin.
Qed.

(** X13: on a table without a payment-status column the total is shown
    and then the lookup of the column fails: the exception is not caught. *)
Theorem statistics_need_payment_column df :
  ~ In payment_status (df_columns df) ->
  statistics df = ([Metric (lit "总记录数") (len df)], Fault).
Proof.
  intros Hout. unfold statistics, getitem.
  rewrite (index_of_absent _ _ Hout). reflexivity.
Qed.

Lemma statistics_need_payment_column_witness :
  statistics Cases.two_columns = ([Metric (lit "总记录数") 1], Fault).
Proof.
  apply (@statistics_need_payment_column Cases.two_columns).
  vm_compute. intuition discriminate.
Defined.

Lemma count_up_not_nil value counts : count_up value counts <> [].
Proof.
  destruct counts as [|[v n] rest]; [discriminate|].
  cbn [count_up]. destruct (PyStr.eqb v value); discriminate.
Qed.

Lemma value_counts_from_nil series counts :
  value_counts_from series counts = []
  <-> counts = [] /\ Forall (fun c => c = NaN) series.
Proof.
  revert counts; induction series as [|c rest IH]; intros counts.
  - simpl. split; [intros ->; split; [reflexivity|constructor]|tauto].
  - destruct c as [|v]; cbn [value_counts_from]; rewrite IH.
    + split.
      * intros [-> H]. split; [reflexivity|constructor; [reflexivity|exact H]].
      * intros [-> H]. inversion H; subst. split; [reflexivity|assumption].
    + split.
      * intros [H _]. exfalso. exact (count_up_not_nil _ _ H).
      * intros [_ H]. inversion H; subst. discriminate.
Qed.

(** X14: the unpaid and the paid metric are left out exactly when no row
    has a status text (no rows at all, or missing values only); the total is
    shown in every case. *)
Theorem payment_metrics_need_a_status df series :
  getitem df payment_status = Some series ->
  (statistics df = ([Metric (lit "总记录数") (len df)], Continue tt)
   <-> Forall (fun c => c = NaN) series)
  /\ exists shown,
       statistics df = (Metric (lit "总记录数") (len df) :: shown, Continue tt).
Proof.
  intros Hget. unfold statistics. rewrite Hget.
  pose proof (value_counts_from_nil series []) as Hnil.
  fold (value_counts series) in Hnil.
  destruct (value_counts series) as [|entry counts] eqn:Hcounts.
  - split; [|exists []; reflexivity].
    split; [intros _; apply Hnil; reflexivity|reflexivity].
  - split; [|eexists; reflexivity].
    split; [discriminate|].
    intros Hall. exfalso.
    assert (Habs : entry :: counts = []) by (apply Hnil; auto).
    discriminate Habs.
Qed.

Lemma payment_metrics_need_a_status_witness :
  statistics Scenario.no_rows = ([Metric (lit "总记录数") 0], Continue tt).
Proof.
  apply (proj1 (@payment_metrics_need_a_status Scenario.no_rows []
                  (getitem_payment_status Scenario.no_rows eq_refl))).
  constructor.
Defined.

(** ** The line count, further *)

Lemma lstrip_app s t :
  lstrip (s ++ t)
  = match lstrip s with
    | [] => lstrip t
    | _ :: _ => lstrip s ++ t
    end.
Proof.
  induction s as [|c s IH]; [reflexivity|].
  cbn [app lstrip]. destruct (isspace c); [exact IH|reflexivity].
Qed.

Lemma lstrip_spaces pre :
  Forall (fun c => isspace c = true) pre -> lstrip pre = [].
Proof.
  induction 1 as [|c pre Hc _ IH]; [reflexivity|].
  cbn [lstrip]. rewrite Hc. exact IH.
Qed.

Lemma rstrip_spaces_app s post :
  Forall (fun c => isspace c = true) post -> rstrip (s ++ post) = rstrip s.
Proof.
  intros Hpost. unfold rstrip. rewrite rev_app_distr, lstrip_app.
  rewrite lstrip_spaces; [reflexivity|].
  apply Forall_rev. exact Hpost.
Qed.

Lemma strip_surrounded pre s post :
  Forall (fun c => isspace c = true) pre ->
  Forall (fun c => isspace c = true) post ->
  strip (pre ++ s ++ post) = strip s.
Proof.
  intros Hpre Hpost. unfold strip.
  rewrite lstrip_app, (lstrip_spaces Hpre), lstrip_app.
  destruct (lstrip s) as [|c rest] eqn:Hs.
  - rewrite (lstrip_spaces Hpost). reflexivity.
  - apply rstrip_spaces_app. exact Hpost.
Qed.

(** X15: blank lines and spaces before the first and after the last record
    do not count: surrounding a text with whitespace leaves its line count,
    and thereby the decision on the limit, unchanged. *)
Theorem surrounding_whitespace_not_counted pre input_text post :
  Forall (fun c => isspace c = true) pre ->
  Forall (fun c => isspace c = true) post ->
  line_count (pre ++ input_text ++ post) = line_count input_text.
Proof.
  intros Hpre Hpost. unfold line_count.
  rewrite (strip_surrounded input_text Hpre Hpost). reflexivity.
Qed.

Lemma surrounding_whitespace_not_counted_witness :
  line_count ([newline; 32]%N ++ Scenario.one_record ++ [newline; newline]%N) = 1.
Proof.
  rewrite (@surrounding_whitespace_not_counted [newline; 32]%N
             Scenario.one_record [newline; newline]%N).
  - vm_compute. reflexivity.
  - repeat constructor.
  - repeat constructor.
Defined.

(** ** The API key *)



(** X17: the sidebar never displays more than fifteen characters for the
    key: the first eight and the last four characters around three dots for
    a key of more than twelve characters, four stars for a shorter one. *)
Theorem masked_key_shows_twelve_characters key :
  length (masked_key key) <= 15
  /\ (12 < length key ->
      masked_key key = firstn 8 key ++ lit "..." ++ skipn (length key - 4) key
      /\ length (firstn 8 key) = 8
      /\ length (skipn (length key - 4) key) = 4)
  /\ (length key <= 12 -> masked_key key = lit "****").
Proof.
  unfold masked_key.
  destruct (12 <? length key) eqn:Hlen.
  - apply Nat.ltb_lt in Hlen.
    assert (H8 : length (firstn 8 key) = 8) by (rewrite length_firstn; lia).
    assert (H4 : length (skipn (length key - 4) key) = 4)
      by (rewrite length_skipn; lia).
    split; [|split].
    + rewrite !length_app, H8, H4. simpl. lia.
    + intros _. auto.
    + intros Hshort. lia.
  - apply Nat.ltb_ge in Hlen. split; [|split].
    + simpl. lia.
    + intros Hlong. lia.
    + intros _. reflexivity.
Qed.

Lemma masked_key_shows_twelve_characters_witness :
  masked_key Scenario.key = lit "sk-01234...4567".
Proof.
  rewrite (proj1 (proj1 (proj2 (@masked_key_shows_twelve_characters Scenario.key))
                    ltac:(apply Nat.ltb_lt; vm_compute; reflexivity))).
  vm_compute. reflexivity.
Defined.

Lemma startswith_sk_first key :
  startswith key (lit "sk-") = true -> exists rest, key = 115%N :: rest.
Proof.
  destruct key as [|c rest]; [discriminate|].
  intros H. exists rest.
  change (lit "sk-") with [115; 107; 45]%N in H. cbn [startswith] in H.
  apply andb_true_iff in H. destruct H as [Hc _].
  apply N.eqb_eq in Hc. rewrite Hc. reflexivity.
Qed.

Lemma lstrip_keeps_nonspace s :
  (exists c, In c s /\ isspace c = false) -> lstrip s <> [].
Proof.
  induction s as [|d s IH]; intros (c & Hin & Hc); [destruct Hin|].
  cbn [lstrip]. destruct (isspace d) eqn:Hd; [|discriminate].
  apply IH. destruct Hin as [<-|Hin]; [congruence|]. exists c. auto.
Qed.

Lemma strip_sk_nonempty key :
  startswith key (lit "sk-") = true -> truthy (strip key) = true.
Proof.
  intros Hstart. destruct (startswith_sk_first key Hstart) as [rest ->].
  unfold strip. cbn [lstrip].
  change (isspace 115) with false. cbv iota.
  unfold rstrip.
  assert (Hne : lstrip (rev (115%N :: rest)) <> []).
  { apply lstrip_keeps_nonspace. exists 115%N.
    split; [apply -> in_rev; left; reflexivity|reflexivity]. }
  destruct (lstrip (rev (115%N :: rest))) as [|c l] eqn:E; [congruence|].
  cbn [rev]. destruct (rev l); reflexivity.
Qed.

Lemma strip_fixed body c first rest :
  first :: rest = body ++ [c] ->
  isspace first = false -> isspace c = false ->
  strip (first :: rest) = first :: rest.
Proof.
  intros Hshape Hfirst Hlast. unfold strip. cbn [lstrip]. rewrite Hfirst.
  unfold rstrip. rewrite Hshape, rev_app_distr. cbn [rev app lstrip].
  rewrite Hlast. cbn [rev]. rewrite rev_involutive. reflexivity.
Qed.

(** X18: a key of the expected form that contains a space is announced as
    cleaned, and what is done is a [strip]: when its last character is not
    whitespace the key is left exactly as it was, space included. *)
Theorem interior_space_survives_cleaning key body c :
  startswith key (lit "sk-") = true ->
  40 <= length key ->
  has_space key = true ->
  key = body ++ [c] ->
  isspace c = false ->
  sidebar (Some key) []
  = ([Shown (StInfo (lit "当前密钥: " ++ masked_key key));
      Shown (StWarning (lit "密钥包含空格，已自动清理"))],
     Some key)
  /\ has_space key = true.
Proof.
  intros Hstart Hlen Hspace Hshape Hlast.
  destruct (startswith_sk_first key Hstart) as [rest Hkey].
  split; [|exact Hspace].
  assert (Htruthy : truthy key = true) by (rewrite Hkey; reflexivity).
  assert (Hlen' : (length key <? 40) = false) by (apply Nat.ltb_ge; exact Hlen).
  unfold sidebar. change (truthy []) with false. cbv iota.
  rewrite Htruthy, Hstart, Hspace, Hlen'. cbn [negb orb].
  assert (Hstrip : strip key = key).
  { rewrite Hkey. apply (strip_fixed body c).
    - rewrite <- Hkey. exact Hshape.
    - reflexivity.
    - exact Hlast. }
  rewrite Hstrip. reflexivity.
Qed.

Lemma interior_space_survives_cleaning_witness :
  snd (sidebar (Some Cases.spaced_key) []) = Some Cases.spaced_key.
Proof.
  rewrite (proj1 (@interior_space_survives_cleaning Cases.spaced_key
                    (removelast Cases.spaced_key) 55%N
                    ltac:(vm_compute; reflexivity)
                    ltac:(apply Nat.leb_le; vm_compute; reflexivity)
                    ltac:(vm_compute; reflexivity)
                    ltac:(vm_compute; reflexivity)
                    ltac:(vm_compute; reflexivity))).
  reflexivity.
Defined.

(** X19: the checks of the sidebar never decide whether the handler has a
    key: the handler finds a key exactly when the text typed, or else the
    key loaded, is not empty, whatever its form.  A key of the wrong form is
    reported and used all the same. *)
Theorem sidebar_keeps_key_presence env loaded manual_key :
  deepseek_api_key env = snd (sidebar loaded manual_key) ->
  key_configured env
  = has_key (if truthy manual_key then Some manual_key else loaded).
Proof.
  intros Henv. unfold key_configured. rewrite Henv.
  change (has_key (snd (sidebar loaded manual_key))
          = has_key (if truthy manual_key then Some manual_key else loaded)).
  unfold sidebar.
  destruct (if truthy manual_key then Some manual_key else loaded) as [k|];
    [|reflexivity].
  destruct (truthy k) eqn:Hk; [|reflexivity].
  destruct (startswith k (lit "sk-")) eqn:Hstart; cbn [negb orb];
    [|reflexivity].
  destruct (length k <? 40); [reflexivity|].
  destruct (has_space k); [|reflexivity].
  cbn [snd has_key]. rewrite (strip_sk_nonempty k Hstart), Hk. reflexivity.
Qed.

Lemma sidebar_keeps_key_presence_witness :
  sidebar None Cases.odd_key
  = ([Shown (StInfo (lit "当前密钥: ****"));
      Shown (StError (lit "⚠️ API密钥格式无效"));
      Shown (StInfo (lit "密钥应以'sk-'开头，长度至少40字符"))],
     Some Cases.odd_key)
  /\ key_configured (Cases.keyed (Some Cases.odd_key)) = true.
Proof.
  split; [vm_compute; reflexivity|].
  rewrite (@sidebar_keeps_key_presence (Cases.keyed (Some Cases.odd_key))
             None Cases.odd_key ltac:(vm_compute; reflexivity)).
  reflexivity.
Defined.

(** ** Column widths *)

Lemma set_columns_at df start cols idx col :
  nth_error cols idx = Some col ->
  In (SetColumn (Z.of_nat (start + idx)) (Z.of_nat (start + idx))
                (max_len df (start + idx) col))
     (set_columns df start cols).
Proof.
  revert start idx; induction cols as [|c rest IH]; intros start idx Hnth.
  - destruct idx; discriminate Hnth.
  - destruct idx as [|idx]; cbn [nth_error] in Hnth.
    + injection Hnth as ->. rewrite Nat.add_0_r. left. reflexivity.
    + right. rewrite Nat.add_succ_r. apply (IH (S start) idx Hnth).
Qed.

(** X20: on a table with at least one row and a text in every cell, every
    column is given a width, and the width leaves two characters beyond its
    header and beyond the text of each of its cells. *)
Theorem column_width_fits_header_and_cells df idx col :
  df_rows df <> [] ->
  (forall row, In row (df_rows df) ->
               length row = length (df_columns df)
               /\ Forall (fun c => c <> NaN) row) ->
  nth_error (df_columns df) idx = Some col ->
  exists width,
    In (SetColumn (Z.of_nat idx) (Z.of_nat idx) (Some width))
       (formatted_export df)
    /\ length col + 2 <= width
    /\ (forall row, In row (df_rows df) ->
          exists text,
            nth_error row idx = Some (Str text)
            /\ length text + 2 <= width).
Proof.
  intros Hrows Htext Hnth.
  pose proof (set_columns_at df 0 (df_columns df) idx Hnth) as Hin.
  cbn [Nat.add] in Hin. unfold max_len in Hin.
  destruct (df_rows df) as [|first rest] eqn:Hdf; [congruence|].
  eexists. split; [|split].
  - unfold formatted_export. apply in_or_app. right.
    apply in_or_app. left. exact Hin.
  - lia.
  - intros row Hrow.
    destruct (Htext row Hrow) as [Hwide Hcells].
    assert (Hidx : idx < length row).
    { rewrite Hwide. apply nth_error_Some. rewrite Hnth. discriminate. }
    destruct (nth_error row idx) as [c|] eqn:Hc;
      [|apply nth_error_None in Hc; lia].
    rewrite Forall_forall in Hcells.
    pose proof (Hcells c (nth_error_In _ _ Hc)) as Hnot.
    destruct c as [|text]; [congruence|].
    exists text. split; [reflexivity|].
    pose proof (proj1 (list_max_le
                         (map (fun c => length (astype_str c)) (column_at df idx))
                         _) (le_n _)) as Hall.
    rewrite Forall_forall in Hall.
    assert (Hcell : In (length text)
                       (map (fun c => length (astype_str c)) (column_at df idx))).
    { change (length text) with (length (astype_str (Str text))).
      apply (in_map (fun c => length (astype_str c))).
      unfold column_at. rewrite Hdf.
      rewrite <- (nth_error_nth row idx NaN Hc).
      apply (in_map (fun r => nth idx r NaN)). exact Hrow. }
    specialize (Hall _ Hcell). lia.
Qed.

Lemma column_width_fits_header_and_cells_witness :
  exists width,
    In (SetColumn 8 8 (Some width)) (formatted_export Scenario.four_rows)
    /\ 4 + 2 <= width.
Proof.
  destruct (@column_width_fits_header_and_cells Scenario.four_rows 8
              (lit "支付状态") ltac:(discriminate)
              ltac:(intros row [<-|[<-|[<-|[<-|[]]]]];
                    (split; [reflexivity|repeat constructor; discriminate]))
              eq_refl)
    as (width & Hin & Hheader & _).
  exists width. split; [exact Hin|exact Hheader].
Defined.

(** ** Runs that reach the extractor *)

(** X21: a run that ends with a result had a non-blank input of at most 50
    lines and a key, and made its calls in this order: the test calls up to
    an endpoint of the list, then one extraction request to that endpoint. *)
Theorem completed_run_was_within_limit prompt env input_text result :
  outcome (convert prompt env input_text) = Continue result ->
  truthy (strip input_text) = true
  /\ key_configured env = true
  /\ line_count input_text <= max_records
  /\ exists before endpoint after,
       endpoints = before ++ endpoint :: after
       /\ requests (trace (convert prompt env input_text))
          = map (fun e => (e, test_request)) (before ++ [endpoint])
            ++ [(endpoint, extraction_request prompt input_text)].
Proof.
  destruct (convert_shape prompt env input_text)
    as [_ ->|_ _ ->|_ _ _ ->|before endpoint after _ _ _ _ ->
        |before endpoint after Htext Hkey Hsplit Hcap Hrun];
    try discriminate.
  intros _. split; [exact Htext|]. split; [exact Hkey|]. split; [exact Hcap|].
  exists before, endpoint, after. split; [exact Hsplit|].
  rewrite Hrun, trace_pair. quiet_prefix. cbn [requests app].
  change (requests (trace (after_call env
            (create env endpoint (extraction_request prompt input_text)))))
    with (requests (trace
            match create env endpoint (extraction_request prompt input_text) with
            | Raises e => report_call_failure e ;; stop
            | Response choices =>
                r <- read_response env choices ;;
                show_result (fst r) (snd r) ;;
                ret r
            end)).
  rewrite after_call_requests. reflexivity.
Qed.

Lemma completed_run_was_within_limit_witness :
  line_count Scenario.one_record <= max_records.
Proof.
  refine (proj1 (proj2 (proj2 (@completed_run_was_within_limit []
                   (Scenario.world Scenario.only_v1 (lit "reply")
                      (Evaluates Scenario.mixed))
                   Scenario.one_record _ _)))).
  vm_compute. reflexivity.
Defined.

(** X22: when the extraction call itself raises, the run stops on the
    message carrying the exception text, after the calls already made;
    nothing is stored and no result is returned. *)
Theorem failed_extraction_call_stops_run
    prompt env input_text before endpoint after e :
  truthy (strip input_text) = true ->
  key_configured env = true ->
  endpoints = before ++ endpoint :: after ->
  (forall x, In x before -> passes env x = false) ->
  passes env endpoint = true ->
  line_count input_text <= max_records ->
  create env endpoint (extraction_request prompt input_text) = Raises e ->
  convert prompt env input_text
  = (probes (before ++ [endpoint])
       ++ [SidebarSuccess (lit "API端点可用: " ++ endpoint);
           Create endpoint (extraction_request prompt input_text);
           StError (lit "API调用失败: " ++ e);
           StInfo (lit "建议尝试：");
           StInfo (lit "1. 检查DeepSeek平台状态");
           StInfo (lit "2. 稍后重试");
           StInfo (lit "3. 联系DeepSeek支持")],
     Stop)
  /\ stored (trace (convert prompt env input_text)) = [].
Proof.
  intros Htext Hkey Hsplit Hfail Hpass Hcap Hraise.
  assert (Hrun := convert_extraction prompt env input_text before endpoint after
                    Htext Hkey Hsplit Hfail Hpass Hcap).
  rewrite Hraise in Hrun.
  split.
  - rewrite Hrun. reflexivity.
  - rewrite Hrun, trace_pair. quiet_prefix. reflexivity.
Qed.

Lemma failed_extraction_call_stops_run_witness :
  outcome (convert [] {| deepseek_api_key := Some Scenario.key;
                         create := fun _ req =>
                           match max_tokens req with
                           | Some _ => Response [Some (lit "ok")]
                           | None => Raises (lit "Request timed out.")
                           end;
                         py_eval := fun _ => Evaluates (PyList []);
                         py_str := Scenario.show;
                         py_str_raises := Scenario.show_raises |}
                   Scenario.one_record) = Stop.
Proof.
  rewrite (proj1 (@failed_extraction_call_stops_run []
                    {| deepseek_api_key := Some Scenario.key;
                       create := fun _ req =>
                         match max_tokens req with
                         | Some _ => Response [Some (lit "ok")]
                         | None => Raises (lit "Request timed out.")
                         end;
                       py_eval := fun _ => Evaluates (PyList []);
                       py_str := Scenario.show;
                       py_str_raises := Scenario.show_raises |}
                    Scenario.one_record
                    [] (lit "https://api.deepseek.com")
                    [lit "https://api.deepseek.com/v1"; lit "https://api.deepseek.cc"]
                    (lit "Request timed out.")
                    eq_refl eq_refl eq_refl
                    ltac:(intros x [])
                    eq_refl
                    ltac:(apply Nat.leb_le; vm_compute; reflexivity)
                    eq_refl)).
  reflexivity.
Defined.

(** ** Fields of a row *)

(** X23: the field of a row at the place of a column holds the value the
    mapping stores under that column's name, and the empty string when the
    mapping has no entry under it. *)
Theorem row_field_is_value_under_column entries idx key :
  nth_error columns idx = Some key ->
  ((forall v, ~ In (PyStr key, v) entries) ->
   nth_error (row_of entries) idx = Some (PyStr []))
  /\ (forall v,
        In (PyStr key, v) entries ->
        (forall v1 v2, In (PyStr key, v1) entries ->
                       In (PyStr key, v2) entries -> v1 = v2) ->
        nth_error (row_of entries) idx = Some v).
Proof.
  intros Hcol. rewrite row_of_columns, nth_error_map, Hcol. cbn [option_map].
  split.
  - intros Habsent. rewrite dict_get_absent by exact Habsent. reflexivity.
  - intros v Hin Huniq. rewrite (dict_get_present entries key v Hin Huniq).
    reflexivity.
Qed.

Lemma row_field_is_value_under_column_witness :
  nth_error (row_of [(PyStr (lit "支付状态"), PyStr (lit "已支付"))]) 8
  = Some (PyStr (lit "已支付")).
Proof.
  apply (proj2 (@row_field_is_value_under_column
                  [(PyStr (lit "支付状态"), PyStr (lit "已支付"))] 8
                  (lit "支付状态") eq_refl)).
  - left. reflexivity.
  - intros v1 v2 [H1|[]] [H2|[]]. congruence.
Defined.
